(** * GitLab pipeline dashboard: a shallow embedding of [main.py]

    The program is a Streamlit script: it reads three text inputs, asks the
    GitLab REST API for the projects of a group, then for the recent pipelines
    of every project, and renders three tabs from the collected rows.

    Embedding choices.
    - Python values that travel through the script (the decoded JSON of the
      API, the cells of the DataFrame) are [pyval]s; JSON objects are
      [gmap string pyval], so [d[k]] can raise [KeyError] and [d.get(k, v)]
      cannot.  Floats do not occur in the fields that the script reads.
    - The outside world is read through a [World]: the answer of every HTTP
      request, the clock, and the three library routines whose code is not
      part of the script ([datetime.fromisoformat], [datetime.strftime] and
      pandas' [sort_values]).  A world is fixed during one run of the script.
    - The script writes to the page.  The message calls ([st.error],
      [st.warning], [st.success], [st.info]) are kept as a log of
      [ui_event]s, in the order they are issued; what the tabs show is
      returned as data.  Calls that only lay the page out (titles, columns,
      progress bar, spinner, divider) carry no data and are left out.
    - An uncaught Python exception ends the script, so the script runs in a
      writer-plus-exception monad [ui].
    - The docstring of five functions is followed by a subscript
      ([[22]], [[36]], [[6][10]]): that is an expression statement which
      Python evaluates when the function is called.  It is modelled as
      written, with [str_subscript]; out of range it raises [IndexError]
      before anything else of the function runs. *)

From stdpp Require Import gmap strings list fin_maps pretty sorting.
From Stdlib Require Import ZArith Ascii.

Open Scope string_scope.
Open Scope list_scope.
Open Scope Z_scope.

(** ** Python values *)

#[local] Unset Elimination Schemes.
Inductive pyval : Type :=
  | PNone
  | PBool (b : bool)
  | PInt (z : Z)
  | PStr (s : string)
  | PList (l : list pyval)
  | PDict (d : gmap string pyval).
#[local] Set Elimination Schemes.

(** A JSON object after [response.json()]. *)
Abbreviation pydict := (gmap string pyval).

(** [bool(v)]: what [if v:] and [not v] look at. *)
Definition truthy (v : pyval) : bool :=
  match v with
  | PNone => false
  | PBool b => b
  | PInt z => negb (z =? 0)
  | PStr s => negb (String.eqb s "")
  | PList l => match l with [] => false | _ => true end
  | PDict d => match map_to_list d with [] => false | _ => true end
  end.

(** [v == s] for a string literal [s]. *)
Definition py_eq_str (v : pyval) (s : string) : bool :=
  match v with
  | PStr t => String.eqb t s
  | _ => false
  end.

(** [v in [s1, ..., sn]] for a list of string literals. *)
Definition py_in_strs (v : pyval) (l : list string) : bool :=
  existsb (py_eq_str v) l.

(** [s.replace(c, by)] for a one-character pattern. *)
Fixpoint str_replace (c : ascii) (by_ : string) (s : string) : string :=
  match s with
  | EmptyString => EmptyString
  | String a rest =>
      if Ascii.eqb a c then by_ +:+ str_replace c by_ rest
      else String a (str_replace c by_ rest)
  end.

(** [s.rstrip(c)] for a one-character set. *)
Fixpoint str_rstrip (c : ascii) (s : string) : string :=
  match s with
  | EmptyString => EmptyString
  | String a rest =>
      match str_rstrip c rest with
      | EmptyString => if Ascii.eqb a c then EmptyString else String a EmptyString
      | r => String a r
      end
  end.

(** ** Exceptions and the page *)

Inductive exn : Type :=
  | KeyError (k : string)
  | IndexError
  | AttributeError
  | TypeError.

Inductive res (A : Type) : Type :=
  | Ret (a : A)
  | Raise (e : exn).
Arguments Ret {A} a.
Arguments Raise {A} e.

(** One constructor per message call of the script. *)
Inductive ui_event : Type :=
  | ErrorGroupProjects (e : string)
      (* st.error(f"Error fetching group projects: {str(e)}") *)
  | ErrorProjectPipelines (project_id : pyval) (e : string)
      (* st.error(f"Error fetching pipelines for project {project_id}: {str(e)}") *)
  | WarningMissingConfig
      (* st.warning("Please provide GitLab URL, Access Token, and Group ID ...") *)
  | ErrorNoProjects
      (* st.error("No projects found or unable to access the group.") *)
  | SuccessFound (n : nat)
      (* st.success(f"Found {len(projects)} projects in the group") *)
  | InfoNoPending
      (* st.info("No pending pipelines found!") *)
  | InfoNoSuccesses.
      (* st.info("No successful pipelines found!") *)

(** A computation of the script: its result or the exception that ended it,
    and the messages it wrote before that. *)
Definition ui (A : Type) : Type := res A * list ui_event.

Definition ui_ret {A} (a : A) : ui A := (Ret a, []).

Definition ui_bind {A B} (m : ui A) (k : A → ui B) : ui B :=
  match m with
  | (Ret a, log) => let '(r, log') := k a in (r, (log ++ log')%list)
  | (Raise e, log) => (Raise e, log)
  end.

Definition raise {A} (e : exn) : ui A := (Raise e, []).

Definition tell (ev : ui_event) : ui unit := (Ret tt, [ev]).

#[global] Instance ui_mret : MRet ui := @ui_ret.
#[global] Instance ui_mbind : MBind ui := λ A B k m, ui_bind m k.

(** [d[k]] *)
Definition subscript (d : pydict) (k : string) : ui pyval :=
  match d !! k with
  | Some v => mret v
  | None => raise (KeyError k)
  end.

(** [d.get(k, dflt)] *)
Definition dict_get (d : pydict) (k : string) (dflt : pyval) : pyval :=
  default dflt (d !! k).

(** [s[i]] on a string: the character at [i], counted from the end when
    [i] is negative, and [IndexError] outside the string. *)
Definition str_subscript (s : string) (i : Z) : ui string :=
  let n := Z.of_nat (String.length s) in
  let j := if i <? 0 then i + n else i in
  if (0 <=? j) && (j <? n) then
    match String.get (Z.to_nat j) s with
    | Some c => mret (String c EmptyString)
    | None => raise IndexError
    end
  else raise IndexError.

(** [for x in l: out.append(f(x))], or any loop whose body yields one item. *)
Fixpoint for_each {A B} (f : A → ui B) (l : list A) : ui (list B) :=
  match l with
  | [] => mret []
  | x :: rest =>
      y ← f x;
      ys ← for_each f rest;
      mret (y :: ys)
  end.

(** ** Dates *)

(** A [datetime]: its wall-clock reading in microseconds since
    0001-01-01T00:00:00, and its [tzinfo] as a fixed offset in seconds
    ([None] for a naive value). *)
Record datetime : Type := {
  wall_us : Z;
  tzinfo : option Z;
}.

(** A [timedelta], normalised as Python does:
    [0 <= seconds < 86400], [0 <= microseconds < 10^6], [days] of any sign. *)
Record timedelta : Type := {
  days : Z;
  seconds : Z;
  microseconds : Z;
}.

Definition timedelta_of_us (us : Z) : timedelta :=
  {| days := us / 86400000000;
     seconds := (us / 1000000) mod 86400;
     microseconds := us mod 1000000 |}.

(** [a - b] for two values that carry the same [tzinfo]: the difference of
    the wall-clock readings, no time-zone adjustment. *)
Definition datetime_sub (a b : datetime) : timedelta :=
  timedelta_of_us (wall_us a - wall_us b).

(** ** The rows of the DataFrame *)

Record Row : Type := {
  Project : pyval;
  Project_ID : pyval;
  Pipeline_ID : pyval;
  Status : pyval;
  Branch : pyval;
  Created : pyval;
  Updated : pyval;
  Web_URL : pyval;
  User : pyval;
}.

(** ** The world *)

Inductive endpoint : Type :=
  | GroupProjects (group_id : string)
      (* {base}/groups/{group_id}/projects *)
  | ProjectPipelines (project_id : pyval)
      (* {base}/projects/{project_id}/pipelines *)
  | PipelineJobs (project_id pipeline_id : pyval).
      (* {base}/projects/{project_id}/pipelines/{pipeline_id}/jobs *)

Record request : Type := {
  req_base : string;                   (* base_api_url *)
  req_endpoint : endpoint;
  req_token : string;                  (* headers['PRIVATE-TOKEN'] *)
  req_params : list (string * pyval);  (* params *)
}.

(** What [requests.get(...)], [raise_for_status()] and [json()] end in:
    the decoded body, a JSON array of objects, or a [RequestException]
    with its text. *)
Inductive http_result : Type :=
  | Ok (body : list pydict)
  | RequestException (e : string).

Record World : Type := {
  requests_get : request → http_result;
  (* datetime.fromisoformat; None when it raises ValueError *)
  fromisoformat : string → option datetime;
  (* dt.strftime("%Y-%m-%d %H:%M:%S"); None when it raises *)
  strftime : datetime → option string;
  (* datetime.now(tz) *)
  datetime_now : option Z → datetime;
  (* df.sort_values('Updated', ascending=False) *)
  sort_values_Updated_desc : list Row → list Row;
}.

(** ** class GitLabDashboard *)

Record GitLabDashboard : Type := {
  gitlab_url : string;
  access_token : string;
  base_api_url : string;
}.

(** [__init__] *)
Definition GitLabDashboard_init (url token : string) : GitLabDashboard :=
  let stripped := str_rstrip "/"%char url in
  {| gitlab_url := stripped;
     access_token := token;
     base_api_url := stripped +:+ "/api/v4" |}.

(** The three requests: the URL, the headers and the parameters that each
    method hands to [requests.get]. *)
Definition group_projects_request (self : GitLabDashboard) (group_id : string)
    : request :=
  {| req_base := base_api_url self;
     req_endpoint := GroupProjects group_id;
     req_token := access_token self;
     req_params := [("per_page", PInt 100); ("simple", PBool true)] |}.

Definition project_pipelines_request (self : GitLabDashboard)
    (project_id : pyval) (per_page : Z) : request :=
  {| req_base := base_api_url self;
     req_endpoint := ProjectPipelines project_id;
     req_token := access_token self;
     req_params := [("per_page", PInt per_page); ("sort", PStr "desc")] |}.

Definition pipeline_jobs_request (self : GitLabDashboard)
    (project_id pipeline_id : pyval) : request :=
  {| req_base := base_api_url self;
     req_endpoint := PipelineJobs project_id pipeline_id;
     req_token := access_token self;
     req_params := [] |}.

Definition get_group_projects (w : World) (self : GitLabDashboard)
    (group_id : string) : ui (list pydict) :=
  _ ← str_subscript "Get all projects in a group" 22;
  match requests_get w (group_projects_request self group_id) with
  | Ok body => mret body
  | RequestException e =>
      _ ← tell (ErrorGroupProjects e);
      mret []
  end.

Definition get_project_pipelines (w : World) (self : GitLabDashboard)
    (project_id : pyval) (per_page : Z) : ui (list pydict) :=
  _ ← str_subscript "Get pipelines for a specific project" 22;
  match requests_get w (project_pipelines_request self project_id per_page) with
  | Ok body => mret body
  | RequestException e =>
      _ ← tell (ErrorProjectPipelines project_id e);
      mret []
  end.

Definition get_pipeline_jobs (w : World) (self : GitLabDashboard)
    (project_id pipeline_id : pyval) : ui (list pydict) :=
  _ ← str_subscript "Get jobs for a specific pipeline" 36;
  match requests_get w (pipeline_jobs_request self project_id pipeline_id) with
  | Ok body => mret body
  | RequestException e => mret []
  end.

(** The body of the [try] shared by the two date routines:
    [datetime.fromisoformat(dt_string.replace('Z', '+00:00'))].
    [None] stands for any exception: a value without [replace]
    ([AttributeError]) or a string that does not parse ([ValueError]). *)
Definition parse_dt_string (w : World) (dt_string : pyval) : option datetime :=
  match dt_string with
  | PStr s => fromisoformat w (str_replace "Z"%char "+00:00" s)
  | _ => None
  end.

Definition format_datetime (w : World) (dt_string : pyval) : pyval :=
  if negb (truthy dt_string) then PStr "N/A"
  else
    match parse_dt_string w dt_string with
    | Some dt =>
        match strftime w dt with
        | Some s => PStr s
        | None => dt_string
        end
    | None => dt_string
    end.

(** Lines 73 to 82: the wording chosen from the difference. *)
Definition time_ago_of_delta (delta : timedelta) : string :=
  if days delta >? 0 then pretty (days delta) +:+ " days ago"
  else if seconds delta >? 3600 then
    let hours := seconds delta / 3600 in
    pretty hours +:+ " hours ago"
  else if seconds delta >? 60 then
    let minutes := seconds delta / 60 in
    pretty minutes +:+ " minutes ago"
  else "Just now".

Definition get_time_ago (w : World) (dt_string : pyval) : string :=
  if negb (truthy dt_string) then "N/A"
  else
    match parse_dt_string w dt_string with
    | Some dt =>
        let now := datetime_now w (tzinfo dt) in
        let delta := datetime_sub now dt in
        time_ago_of_delta delta
    | None => "N/A"
    end.

(** ** get_status_color *)

Definition colors : gmap string string :=
  list_to_map
    [ ("success", "🟢");
      ("failed", "🔴");
      ("running", "🔵");
      ("pending", "🟡");
      ("canceled", "⚪");
      ("skipped", "⚫");
      ("created", "🟡");
      ("manual", "🟠") ].

(** The docstring statement [[6][10]], then [colors.get(status, '⚪')].
    In the lookup a key that is not hashable (a list, a dict) raises
    [TypeError]; any other value that is not one of the eight strings gets
    the default. *)
Definition get_status_color (status : pyval) : ui string :=
  c ← str_subscript "Return color based on pipeline status" 6;
  _ ← str_subscript c 10;
  match status with
  | PStr s => mret (default "⚪" (colors !! s))
  | PList _ | PDict _ => raise TypeError
  | PNone | PBool _ | PInt _ => mret "⚪"
  end.

(** ** main *)

Record config : Type := {
  cfg_gitlab_url : string;     (* st.sidebar.text_input("GitLab URL") *)
  cfg_access_token : string;   (* st.sidebar.text_input("Access Token") *)
  cfg_group_id : string;       (* st.sidebar.text_input("Group ID") *)
  cfg_auto_refresh : bool;     (* st.sidebar.checkbox("Auto-refresh (30s)") *)
  cfg_refresh_now : bool;      (* st.sidebar.button("Refresh Now") *)
}.

(** The expression for the ['User'] cell:
    [pipeline.get('user', {}).get('name', 'N/A') if pipeline.get('user') else 'N/A'] *)
Definition user_name (pipeline : pydict) : ui pyval :=
  if truthy (dict_get pipeline "user" PNone) then
    match dict_get pipeline "user" (PDict ∅) with
    | PDict u => mret (dict_get u "name" (PStr "N/A"))
    | _ => raise AttributeError
    end
  else mret (PStr "N/A").

(** The dict appended for one pipeline of one project (lines 173 to 183);
    the keys are read in the order of the dict display. *)
Definition make_row (project pipeline : pydict) : ui Row :=
  name ← subscript project "name";
  pid ← subscript project "id";
  plid ← subscript pipeline "id";
  status ← subscript pipeline "status";
  ref ← subscript pipeline "ref";
  user ← user_name pipeline;
  mret {| Project := name;
          Project_ID := pid;
          Pipeline_ID := plid;
          Status := status;
          Branch := ref;
          Created := dict_get pipeline "created_at" (PStr "");
          Updated := dict_get pipeline "updated_at" (PStr "");
          Web_URL := dict_get pipeline "web_url" (PStr "");
          User := user |}.

(** One turn of the loop over the projects (lines 169 to 183). *)
Definition project_rows (w : World) (dashboard : GitLabDashboard)
    (project : pydict) : ui (list Row) :=
  _ ← subscript project "name";
  pid ← subscript project "id";
  pipelines ← get_project_pipelines w dashboard pid 5;
  for_each (make_row project) pipelines.

(** The loop that fills [all_pipelines_data] (lines 164 to 185). *)
Fixpoint collect_pipelines (w : World) (dashboard : GitLabDashboard)
    (projects : list pydict) : ui (list Row) :=
  match projects with
  | [] => mret []
  | project :: rest =>
      rows ← project_rows w dashboard project;
      more ← collect_pipelines w dashboard rest;
      mret (rows ++ more)
  end.

(** [len(df[df['Status'] == s])] *)
Definition count_status (s : string) (df : list Row) : nat :=
  length (List.filter (λ r, py_eq_str (Status r) s) df).

(** [len(df[df['Status'].isin(['pending', 'created'])])] *)
Definition pending_count (df : list Row) : nat :=
  length (List.filter (λ r, py_in_strs (Status r) ["pending"; "created"]) df).

(** One line of the "Recent Pipelines" table, columns [display_columns]. *)
Record display_row : Type := {
  dr_Status_Icon : string;
  dr_Project : pyval;
  dr_Branch : pyval;
  dr_Status : pyval;
  dr_Created : pyval;
  dr_Time_Ago : string;
  dr_User : pyval;
}.

Definition make_display_row (w : World) (r : Row) : ui display_row :=
  icon ← get_status_color (Status r);
  mret {| dr_Status_Icon := icon;
          dr_Project := Project r;
          dr_Branch := Branch r;
          dr_Status := Status r;
          dr_Created := format_datetime w (Created r);
          dr_Time_Ago := get_time_ago w (Updated r);
          dr_User := User r |}.

Record overview : Type := {
  ov_success_count : nat;
  ov_failed_count : nat;
  ov_running_count : nat;
  ov_pending_count : nat;
  ov_table : list display_row;
}.

(** The first tab after the loop (lines 190 to 227); nothing is shown
    when no row was collected. *)
Definition render_overview (w : World) (all_pipelines_data : list Row)
    : ui (option overview) :=
  match all_pipelines_data with
  | [] => mret None
  | _ =>
      table ← for_each (make_display_row w) all_pipelines_data;
      mret (Some {| ov_success_count := count_status "success" all_pipelines_data;
                    ov_failed_count := count_status "failed" all_pipelines_data;
                    ov_running_count := count_status "running" all_pipelines_data;
                    ov_pending_count := pending_count all_pipelines_data;
                    ov_table := table |})
  end.

(** [[p for p in all_pipelines_data
        if p['Status'] in ['pending', 'created', 'running']]] *)
Definition pending_pipelines (all_pipelines_data : list Row) : list Row :=
  List.filter (λ p, py_in_strs (Status p) ["pending"; "created"; "running"])
    all_pipelines_data.

(** One line of the job list of an expander. *)
Record job_line : Type := {
  jl_icon : string;
  jl_name : pyval;
  jl_status : pyval;
}.

Definition make_job_line (job : pydict) : ui job_line :=
  status ← subscript job "status";
  job_status ← get_status_color status;
  name ← subscript job "name";
  mret {| jl_icon := job_status; jl_name := name; jl_status := status |}.

(** One expander of the second tab (lines 237 to 256). *)
Record pending_entry : Type := {
  pe_icon : string;
  pe_pipeline : Row;
  pe_created : pyval;
  pe_link : option pyval;     (* "[View Pipeline](...)", when the URL is truthy *)
  pe_jobs : list job_line;    (* empty: no "Jobs:" section *)
}.

Definition make_pending_entry (w : World) (dashboard : GitLabDashboard)
    (pipeline : Row) : ui pending_entry :=
  icon ← get_status_color (Status pipeline);
  jobs ← get_pipeline_jobs w dashboard (Project_ID pipeline) (Pipeline_ID pipeline);
  lines ← for_each make_job_line jobs;
  mret {| pe_icon := icon;
          pe_pipeline := pipeline;
          pe_created := format_datetime w (Created pipeline);
          pe_link := if truthy (Web_URL pipeline) then Some (Web_URL pipeline) else None;
          pe_jobs := lines |}.

(** The second tab (lines 232 to 258). *)
Definition render_pending (w : World) (dashboard : GitLabDashboard)
    (all_pipelines_data : list Row) : ui (list pending_entry) :=
  match pending_pipelines all_pipelines_data with
  | [] =>
      _ ← tell InfoNoPending;
      mret []
  | pending_df => for_each (make_pending_entry w dashboard) pending_df
  end.

(** [[p for p in all_pipelines_data if p['Status'] == 'success']] *)
Definition success_pipelines (all_pipelines_data : list Row) : list Row :=
  List.filter (λ p, py_eq_str (Status p) "success") all_pipelines_data.

(** One block of the third tab (lines 271 to 284). *)
Record success_entry : Type := {
  se_pipeline : Row;
  se_completed : string;
  se_link : option pyval;
}.

Definition make_success_entry (w : World) (pipeline : Row) : success_entry :=
  {| se_pipeline := pipeline;
     se_completed := get_time_ago w (Updated pipeline);
     se_link := if truthy (Web_URL pipeline) then Some (Web_URL pipeline) else None |}.

(** The rows the third tab walks over:
    [success_df.sort_values('Updated', ascending=False).head(10)]. *)
Definition recent_successes (w : World) (all_pipelines_data : list Row) : list Row :=
  match success_pipelines all_pipelines_data with
  | [] => []
  | success_df => take 10 (sort_values_Updated_desc w success_df)
  end.

(** The third tab (lines 263 to 286). *)
Definition render_successes (w : World) (all_pipelines_data : list Row)
    : ui (list success_entry) :=
  match success_pipelines all_pipelines_data with
  | [] =>
      _ ← tell InfoNoSuccesses;
      mret []
  | _ => mret (make_success_entry w <$> recent_successes w all_pipelines_data)
  end.

Record views : Type := {
  v_all_pipelines_data : list Row;
  v_overview : option overview;
  v_pending : list pending_entry;
  v_successes : list success_entry;
}.

Inductive outcome : Type :=
  | Rerun                    (* st.rerun() *)
  | MissingConfig            (* return after the warning *)
  | NoProjectsFound          (* return after "No projects found ..." *)
  | Rendered (v : views).    (* the three tabs *)

(** The page once the group has projects (lines 155 to 286): the loop,
    then the three tabs. *)
Definition render_tabs (w : World) (dashboard : GitLabDashboard)
    (projects : list pydict) : ui views :=
  _ ← tell (SuccessFound (length projects));
  all_pipelines_data ← collect_pipelines w dashboard projects;
  ov ← render_overview w all_pipelines_data;
  pending ← render_pending w dashboard all_pipelines_data;
  successes ← render_successes w all_pipelines_data;
  mret {| v_all_pipelines_data := all_pipelines_data;
          v_overview := ov;
          v_pending := pending;
          v_successes := successes |}.

(** [all([gitlab_url, access_token, group_id])] *)
Definition config_complete (cfg : config) : bool :=
  forallb (λ s, negb (String.eqb s ""))
    [cfg_gitlab_url cfg; cfg_access_token cfg; cfg_group_id cfg].

Definition main (w : World) (cfg : config) : ui outcome :=
  if cfg_auto_refresh cfg then mret Rerun
  else if cfg_refresh_now cfg then mret Rerun
  else if negb (config_complete cfg) then
    _ ← tell WarningMissingConfig;
    mret MissingConfig
  else
    let dashboard := GitLabDashboard_init (cfg_gitlab_url cfg) (cfg_access_token cfg) in
    projects ← get_group_projects w dashboard (cfg_group_id cfg);
    match projects with
    | [] =>
        _ ← tell ErrorNoProjects;
        mret NoProjectsFound
    | _ =>
        v ← render_tabs w dashboard projects;
        mret (Rendered v)
    end.

(** ** The order pandas sorts the third tab by *)

(** [a] may stand before [b] after
    [sort_values('Updated', ascending=False)]: strings compare by code
    point (byte-wise on UTF-8), largest first, and missing values go last. *)
Definition updated_desc (a b : Row) : Prop :=
  match Updated a, Updated b with
  | PStr x, PStr y => String.leb y x = true
  | _, PNone => True
  | _, _ => False
  end.

(** ** Well-formed answers of the API *)

(** A project record carries the two keys the loop reads. *)
Definition project_ok (project : pydict) : Prop :=
  is_Some (project !! "name") ∧ is_Some (project !! "id").

(** A pipeline record carries the three keys read with [[...]], and its
    ["user"], when truthy, is an object. *)
Definition pipeline_ok (pipeline : pydict) : Prop :=
  is_Some (pipeline !! "id") ∧
  is_Some (pipeline !! "status") ∧
  is_Some (pipeline !! "ref") ∧
  match pipeline !! "user" with
  | Some (PDict _) | None => True
  | Some v => truthy v = false
  end.

(** The pipeline request of [project] is answered with well-formed records. *)
Definition fetch_ok (w : World) (dashboard : GitLabDashboard)
    (project : pydict) : Prop :=
  project_ok project ∧
  ∃ pid body,
    project !! "id" = Some pid ∧
    requests_get w (project_pipelines_request dashboard pid 5) = Ok body ∧
    Forall pipeline_ok body.

(** The pipeline request of [project] ends in a [RequestException]. *)
Definition fetch_fails (w : World) (dashboard : GitLabDashboard)
    (project : pydict) (pid : pyval) (e : string) : Prop :=
  project_ok project ∧
  project !! "id" = Some pid ∧
  requests_get w (project_pipelines_request dashboard pid 5) = RequestException e.

(** ** Predicates on the messages of a run *)

(** Every message of a computation satisfies [P]. *)
Definition log_all {A} (P : ui_event → Prop) (m : ui A) : Prop := Forall P m.2.

(** A message about the group request. *)
Definition about_group (ev : ui_event) : Prop :=
  match ev with
  | ErrorGroupProjects _ => True
  | _ => False
  end.

Abbreviation quiet m := (log_all (λ ev, ¬ about_group ev) m).

(** ** Example worlds *)

Module Example.

(** Calendar arithmetic of the proleptic Gregorian calendar, to write
    down the wall-clock reading of a date. *)
Definition is_leap (y : Z) : bool :=
  ((y mod 4 =? 0) && negb (y mod 100 =? 0)) || (y mod 400 =? 0).

Definition days_before_year (y : Z) : Z :=
  (y - 1) * 365 + (y - 1) / 4 - (y - 1) / 100 + (y - 1) / 400.

Definition days_before_month (y m : Z) : Z :=
  nth (Z.to_nat m) [0; 0; 31; 59; 90; 120; 151; 181; 212; 243; 273; 304; 334] 0
  + (if (m >? 2) && is_leap y then 1 else 0).

Definition ymd2ord (y m d : Z) : Z :=
  days_before_year y + days_before_month y m + d.

Definition utc (y m d hh mm ss : Z) : datetime :=
  {| wall_us := (((ymd2ord y m d - 1) * 24 + hh) * 60 + mm) * 60 * 1000000
                + ss * 1000000;
     tzinfo := Some 0 |}.

(** The strings [fromisoformat] accepts in the example worlds. *)
Definition timestamps : gmap string datetime :=
  list_to_map
    [ ("2024-01-01T23:00:00+00:00", utc 2024 1 1 23 0 0);
      ("2024-01-01T23:59:00+00:00", utc 2024 1 1 23 59 0);
      ("2024-01-01T23:59:30+00:00", utc 2024 1 1 23 59 30);
      ("2024-01-01T12:00:00+00:00", utc 2024 1 1 12 0 0);
      ("2023-12-31T00:00:00+00:00", utc 2023 12 31 0 0 0);
      ("2024-01-02T00:00:00+00:00", utc 2024 1 2 0 0 0) ].

(** A sort that meets the contract of [sort_values]: insertion sort,
    largest ['Updated'] first, missing values last. *)
Definition updated_geb (a b : Row) : bool :=
  match Updated a, Updated b with
  | PStr x, PStr y => String.leb y x
  | _, PNone => true
  | _, _ => false
  end.

Fixpoint insert_desc (r : Row) (l : list Row) : list Row :=
  match l with
  | [] => [r]
  | x :: rest => if updated_geb r x then r :: l else x :: insert_desc r rest
  end.

Definition sort_desc (l : list Row) : list Row := foldr insert_desc [] l.

(** A world from the answers of the three endpoints; now is
    2024-01-02T00:00:00Z. *)
Definition world (group : http_result) (pipelines : pyval → http_result)
    (jobs : pyval → pyval → http_result) : World :=
  {| requests_get := λ req,
       match req_endpoint req with
       | GroupProjects _ => group
       | ProjectPipelines pid => pipelines pid
       | PipelineJobs pid plid => jobs pid plid
       end;
     fromisoformat := λ s, timestamps !! s;
     strftime := λ _, None;
     datetime_now := λ tz, {| wall_us := wall_us (utc 2024 1 2 0 0 0); tzinfo := tz |};
     sort_values_Updated_desc := sort_desc |}.

Definition project_A : pydict := list_to_map [("id", PInt 1); ("name", PStr "A")].
Definition project_B : pydict := list_to_map [("id", PInt 2); ("name", PStr "B")].

Definition pipeline_10 : pydict :=
  list_to_map
    [ ("id", PInt 10); ("status", PStr "success"); ("ref", PStr "main");
      ("updated_at", PStr "2024-01-01T23:00:00Z") ].

Definition pipeline_20 : pydict :=
  list_to_map
    [ ("id", PInt 20); ("status", PStr "running"); ("ref", PStr "dev");
      ("updated_at", PStr "2024-01-01T23:59:30Z") ].

(** The rows that the loop makes of the two pipelines. *)
Definition row_10 : Row :=
  {| Project := PStr "A"; Project_ID := PInt 1; Pipeline_ID := PInt 10;
     Status := PStr "success"; Branch := PStr "main";
     Created := PStr ""; Updated := PStr "2024-01-01T23:00:00Z";
     Web_URL := PStr ""; User := PStr "N/A" |}.

Definition row_20 : Row :=
  {| Project := PStr "B"; Project_ID := PInt 2; Pipeline_ID := PInt 20;
     Status := PStr "running"; Branch := PStr "dev";
     Created := PStr ""; Updated := PStr "2024-01-01T23:59:30Z";
     Web_URL := PStr ""; User := PStr "N/A" |}.

Definition row_30 : Row :=
  {| Project := PStr "B"; Project_ID := PInt 2; Pipeline_ID := PInt 30;
     Status := PStr "success"; Branch := PStr "main";
     Created := PStr ""; Updated := PStr "2024-01-01T23:59:00Z";
     Web_URL := PStr "https://gitlab.com/b/-/pipelines/30"; User := PStr "N/A" |}.

(** A collection with an older success, a running pipeline and a newer
    success. *)
Definition rows : list Row := [row_10; row_20; row_30].

Definition dashboard : GitLabDashboard :=
  GitLabDashboard_init "https://gitlab.com/" "token".

Definition cfg : config :=
  {| cfg_gitlab_url := "https://gitlab.com/";
     cfg_access_token := "token";
     cfg_group_id := "42";
     cfg_auto_refresh := false;
     cfg_refresh_now := false |}.

Definition no_jobs : pyval → pyval → http_result :=
  λ _ _, RequestException "404".

(** The scenario of the specification: project 1 answers with one
    successful pipeline, the request of project 2 ends in an error. *)
Definition world_one_fails : World :=
  world (Ok [project_A; project_B])
    (λ pid, match pid with
            | PInt 1 => Ok [pipeline_10]
            | _ => RequestException "500"
            end)
    no_jobs.

(** Project 1 fails, project 2 has no pipeline. *)
Definition world_A_fails : World :=
  world (Ok [project_A; project_B])
    (λ pid, match pid with
            | PInt 1 => RequestException "500"
            | _ => Ok []
            end)
    no_jobs.

(** Project 2 fails, project 1 has no pipeline. *)
Definition world_B_fails : World :=
  world (Ok [project_A; project_B])
    (λ pid, match pid with
            | PInt 2 => RequestException "500"
            | _ => Ok []
            end)
    no_jobs.

(** Every request is answered. *)
Definition world_all_ok : World :=
  world (Ok [project_A; project_B])
    (λ pid, match pid with
            | PInt 1 => Ok [pipeline_10]
            | PInt 2 => Ok [pipeline_20]
            | _ => Ok []
            end)
    no_jobs.

(** The group request itself ends in an error. *)
Definition world_group_fails : World :=
  world (RequestException "401") (λ _, Ok []) no_jobs.

End Example.

(** ** Auxiliary notions for the string routines *)

(** [n] copies of [c]. *)
Fixpoint str_repeat (c : ascii) (n : nat) : string :=
  match n with
  | O => EmptyString
  | S n' => String c (str_repeat c n')
  end.

(** [s.count(c)] *)
Fixpoint count_char (c : ascii) (s : string) : nat :=
  match s with
  | EmptyString => O
  | String a rest => (if Ascii.eqb a c then 1 else 0) + count_char c rest
  end.

(** ** More example worlds *)

Module Scenario.

(** A world that differs from [w] only in the strings its parser accepts. *)
Definition with_timestamps (w : World) (table : gmap string datetime) : World :=
  {| requests_get := requests_get w;
     fromisoformat := λ s, table !! s;
     strftime := strftime w;
     datetime_now := datetime_now w;
     sort_values_Updated_desc := sort_values_Updated_desc w |}.

(** Now is 2024-01-02T00:00:00Z; the parser knows one instant a second
    after now and one at noon of the day before. *)
Definition world_clock : World :=
  with_timestamps Example.world_all_ok
    (list_to_map
       [ ("2024-01-02T00:00:01+00:00", Example.utc 2024 1 2 0 0 1);
         ("2024-01-01T12:00:00+00:00", Example.utc 2024 1 1 12 0 0) ]).

End Scenario.

(** ** What a project contributes *)

(** The records answered to the pipeline request of [project]; none when
    the request fails. *)
Definition pipelines_of (w : World) (dashboard : GitLabDashboard)
    (project : pydict) : list pydict :=
  match project !! "id" with
  | Some pid =>
      match requests_get w (project_pipelines_request dashboard pid 5) with
      | Ok body => body
      | RequestException _ => []
      end
  | None => []
  end.

(** The message written for [project]: one error when its request fails. *)
Definition pipeline_errors (w : World) (dashboard : GitLabDashboard)
    (project : pydict) : list ui_event :=
  match project !! "id" with
  | Some pid =>
      match requests_get w (project_pipelines_request dashboard pid 5) with
      | Ok _ => []
      | RequestException e => [ErrorProjectPipelines pid e]
      end
  | None => []
  end.

(** ** Example worlds with ill-formed records *)

Module Faulty.

(** A pipeline record without its ["ref"]. *)
Definition pipeline_no_ref : pydict :=
  list_to_map [("id", PInt 11); ("status", PStr "failed")].

(** Project 1 answers with a good record followed by one without ["ref"];
    project 2 answers with a good record. *)
Definition world_no_ref : World :=
  Example.world (Ok [Example.project_A; Example.project_B])
    (λ pid, match pid with
            | PInt 1 => Ok [Example.pipeline_10; pipeline_no_ref]
            | _ => Ok [Example.pipeline_20]
            end)
    Example.no_jobs.

End Faulty.

(** ** Statuses *)

(** A row that none of the four metrics counts. *)
Definition uncounted (r : Row) : bool :=
  negb (py_in_strs (Status r) ["success"; "failed"; "running"; "pending"; "created"]).

(** ** The dashboard of a configuration *)

(** [GitLabDashboard(gitlab_url, access_token)] as [main] builds it. *)
Definition dashboard_of (cfg : config) : GitLabDashboard :=
  GitLabDashboard_init (cfg_gitlab_url cfg) (cfg_access_token cfg).

(** ** Example world in which every pipeline request fails *)

Module Outage.

Definition world_all_fail : World :=
  Example.world (Ok [Example.project_A; Example.project_B])
    (λ _, RequestException "503")
    Example.no_jobs.

End Outage.

(** * Properties *)

(** ** The monad *)

Lemma ui_bind_ret {A B} (a : A) (log : list ui_event) (k : A → ui B) :
  ((Ret a, log) ≫= k) = (fst (k a), log ++ snd (k a)).
Proof. unfold mbind, ui_mbind, ui_bind. by destruct (k a). Qed.

Lemma ui_bind_raise {A B} (e : exn) (log : list ui_event) (k : A → ui B) :
  ((Raise e, log) ≫= k) = (Raise e, log).
Proof. reflexivity. Qed.

Lemma ui_bind_pure {A B} (a : A) (k : A → ui B) :
  ((Ret a, []) ≫= k) = k a.
Proof. rewrite ui_bind_ret. by destruct (k a). Qed.

Lemma ui_bind_mret {A B} (a : A) (k : A → ui B) :
  (mret a ≫= k) = k a.
Proof. apply ui_bind_pure. Qed.

(** ** The docstring statements *)

(** In [get_group_projects] and [get_project_pipelines] the subscript is
    inside the docstring: it yields a character, which is dropped. *)
Lemma get_group_projects_eq (w : World) (self : GitLabDashboard) (group_id : string) :
  get_group_projects w self group_id =
    match requests_get w (group_projects_request self group_id) with
    | Ok body => mret body
    | RequestException e => _ ← tell (ErrorGroupProjects e); mret []
    end.
Proof. unfold get_group_projects. exact (ui_bind_pure _ _). Qed.

Lemma get_project_pipelines_eq (w : World) (self : GitLabDashboard)
    (project_id : pyval) (per_page : Z) :
  get_project_pipelines w self project_id per_page =
    match requests_get w (project_pipelines_request self project_id per_page) with
    | Ok body => mret body
    | RequestException e => _ ← tell (ErrorProjectPipelines project_id e); mret []
    end.
Proof. unfold get_project_pipelines. exact (ui_bind_pure _ _). Qed.

(** In [get_pipeline_jobs] the docstring has 32 characters and the
    subscript asks for the one at 36. *)
Lemma get_pipeline_jobs_IndexError (w : World) (self : GitLabDashboard)
    (project_id pipeline_id : pyval) :
  get_pipeline_jobs w self project_id pipeline_id = (Raise IndexError, []).
Proof. reflexivity. Qed.

(** In [get_status_color] the first subscript yields the blank after
    "Return", and the second asks for the character at 10 of that blank. *)
Lemma get_status_color_IndexError (status : pyval) :
  get_status_color status = (Raise IndexError, []).
Proof. reflexivity. Qed.

(** ** The normalizer: status glyphs *)

(** C5. The glyph function does not return for any status: its first
    statement, the docstring subscripted with [[6][10]], takes the blank
    at 6 of the docstring and then asks for the character at 10 of that
    one-character string, which raises [IndexError] before the table is
    looked up.  So it is for "success" and for the unrecognised
    "weird_status", for which the table and its default would have given
    a glyph. *)
Theorem get_status_color_raises (status : pyval) :
  str_subscript "Return color based on pipeline status" 6 = (Ret " ", []) ∧
  str_subscript " " 10 = (Raise IndexError, []) ∧
  get_status_color status = (Raise IndexError, []) ∧
  get_status_color (PStr "weird_status") = (Raise IndexError, []) ∧
  colors !! "weird_status" = None ∧
  colors !! "success" = Some "🟢".
Proof. repeat split; by vm_compute. Qed.

(** ** The normalizer: dates *)

Lemma falsy_format_datetime (w : World) (v : pyval) :
  truthy v = false → format_datetime w v = PStr "N/A".
Proof. intros H. unfold format_datetime. by rewrite H. Qed.

Lemma falsy_get_time_ago (w : World) (v : pyval) :
  truthy v = false → get_time_ago w v = "N/A".
Proof. intros H. unfold get_time_ago. by rewrite H. Qed.

Lemma truthy_PStr (s : string) : s ≠ "" → truthy (PStr s) = true.
Proof.
  intros H. simpl. destruct (String.eqb_spec s ""); [done|reflexivity].
Qed.

(** C10. For a missing or empty timestamp both routines answer "N/A";
    the formatting routine does not hand the empty string back. *)
Theorem empty_timestamp_is_NA (w : World) :
  format_datetime w PNone = PStr "N/A" ∧
  format_datetime w (PStr "") = PStr "N/A" ∧
  get_time_ago w PNone = "N/A" ∧
  get_time_ago w (PStr "") = "N/A" ∧
  format_datetime w (PStr "") ≠ PStr "".
Proof.
  repeat split; try reflexivity. discriminate.
Qed.

(** C8, as stated, fails at the empty string: it does not parse, and the
    formatting routine answers "N/A" instead of handing it back. *)
Lemma format_datetime_empty_not_returned :
  parse_dt_string Example.world_all_ok (PStr "") = None ∧
  format_datetime Example.world_all_ok (PStr "") ≠ PStr "".
Proof. split; [by vm_compute | discriminate]. Qed.

(** C8, amended. For every non-empty string that does not parse, the
    formatting routine returns the string itself and the elapsed-time
    routine returns "N/A".  Both routines are total: a failure inside
    their [try] is a [None] of the world, and every [None] has an answer. *)
Theorem unparseable_timestamp (w : World) (s : string) :
  s ≠ "" →
  fromisoformat w (str_replace "Z" "+00:00" s) = None →
  format_datetime w (PStr s) = PStr s ∧ get_time_ago w (PStr s) = "N/A".
Proof.
  intros Hne Hparse.
  unfold format_datetime, get_time_ago, parse_dt_string.
  rewrite (truthy_PStr s Hne), Hparse. by split.
Qed.

Lemma unparseable_timestamp_witness :
  format_datetime Example.world_all_ok (PStr "not-a-date") = PStr "not-a-date" ∧
  get_time_ago Example.world_all_ok (PStr "not-a-date") = "N/A".
Proof.
  apply (unparseable_timestamp Example.world_all_ok "not-a-date").
  - discriminate.
  - by vm_compute.
Defined.

(** The fields of a non-negative difference of [d] whole seconds and [f]
    microseconds. *)
Lemma timedelta_of_seconds (d f : Z) :
  0 ≤ d → 0 ≤ f < 1000000 →
  timedelta_of_us (d * 1000000 + f) =
    {| days := d / 86400; seconds := d mod 86400; microseconds := f |}.
Proof.
  intros Hd Hf. unfold timedelta_of_us.
  assert (Hs : (d * 1000000 + f) / 1000000 = d).
  { rewrite Z.add_comm, Z.div_add by lia. rewrite Z.div_small by lia. lia. }
  f_equal.
  - replace 86400000000 with (1000000 * 86400) by lia.
    rewrite <- Z.div_div by lia. by rewrite Hs.
  - by rewrite Hs.
  - rewrite Z.add_comm, Z.mod_add by lia. apply Z.mod_small. lia.
Qed.

(** What the routine words for an elapsed time of [d] seconds (and a
    fraction): the thresholds of the hour and of the minute are strict. *)
Lemma time_ago_of_seconds (d f : Z) :
  0 ≤ d → 0 ≤ f < 1000000 →
  time_ago_of_delta (timedelta_of_us (d * 1000000 + f)) =
    if 86400 <=? d then pretty (d / 86400) +:+ " days ago"
    else if 3600 <? d then pretty (d / 3600) +:+ " hours ago"
    else if 60 <? d then pretty (d / 60) +:+ " minutes ago"
    else "Just now".
Proof.
  intros Hd Hf. rewrite timedelta_of_seconds by done.
  unfold time_ago_of_delta. simpl.
  destruct (Z.leb_spec 86400 d) as [Hday|Hday].
  - assert (0 < d / 86400) by (apply Z.div_str_pos; lia).
    destruct (Z.gtb_spec (d / 86400) 0); [done|lia].
  - rewrite Z.div_small by lia. simpl.
    rewrite Z.mod_small by lia.
    rewrite !Z.gtb_ltb. done.
Qed.

(** C2. At an elapsed time of exactly one hour the routine says
    "60 minutes ago", and at exactly one minute "Just now": the two
    comparisons are strict.  The first is also what the program shows for
    2024-01-01T23:00:00Z when now is 2024-01-02T00:00:00Z. *)
Theorem get_time_ago_boundaries :
  time_ago_of_delta (timedelta_of_us (3600 * 1000000)) = "60 minutes ago" ∧
  time_ago_of_delta (timedelta_of_us (60 * 1000000)) = "Just now" ∧
  time_ago_of_delta (timedelta_of_us (3601 * 1000000)) = "1 hours ago" ∧
  time_ago_of_delta (timedelta_of_us (86400 * 1000000)) = "1 days ago" ∧
  get_time_ago Example.world_all_ok (PStr "2024-01-01T23:00:00Z") = "60 minutes ago".
Proof. repeat split; by vm_compute. Qed.

(** ** The aggregator: the loop over the projects *)

Lemma bind_returns {A B} (m : ui A) (k : A → ui B) a b l1 l2 :
  m = (Ret a, l1) → k a = (Ret b, l2) → (m ≫= k) = (Ret b, l1 ++ l2).
Proof. intros -> Hk. by rewrite ui_bind_ret, Hk. Qed.

Lemma bind_returns_inv {A B} (m : ui A) (k : A → ui B) b log :
  (m ≫= k) = (Ret b, log) →
  ∃ a l1 l2, m = (Ret a, l1) ∧ k a = (Ret b, l2) ∧ log = l1 ++ l2.
Proof.
  destruct m as [[a|e] l1]; [|discriminate].
  rewrite ui_bind_ret. destruct (k a) as [r l2] eqn:Hk. simpl.
  intros [= -> <-]. by exists a, l1, l2.
Qed.

Lemma subscript_Some (d : pydict) (k : string) (v : pyval) :
  d !! k = Some v → subscript d k = (Ret v, []).
Proof. intros H. unfold subscript. by rewrite H. Qed.

Lemma user_name_ok (pipeline : pydict) :
  match pipeline !! "user" with
  | Some (PDict _) | None => True
  | Some v => truthy v = false
  end →
  ∃ u, user_name pipeline = (Ret u, []).
Proof.
  unfold user_name, dict_get.
  destruct (pipeline !! "user") as [v|]; simpl; [|by eexists].
  destruct v; simpl; intros H; try rewrite H; try by eexists.
  destruct (map_to_list d); by eexists.
Qed.

Lemma make_row_ok (project pipeline : pydict) :
  project_ok project → pipeline_ok pipeline →
  ∃ row, make_row project pipeline = (Ret row, []).
Proof.
  intros [[name Hname] [pid Hpid]] ([plid Hid] & [st Hst] & [ref Href] & Huser).
  destruct (user_name_ok pipeline Huser) as [u Hu].
  unfold make_row.
  rewrite (subscript_Some _ _ _ Hname), ui_bind_pure.
  rewrite (subscript_Some _ _ _ Hpid), ui_bind_pure.
  rewrite (subscript_Some _ _ _ Hid), ui_bind_pure.
  rewrite (subscript_Some _ _ _ Hst), ui_bind_pure.
  rewrite (subscript_Some _ _ _ Href), ui_bind_pure.
  rewrite Hu, ui_bind_pure. by eexists.
Qed.

Lemma for_each_ok {A B} (f : A → ui B) (l : list A) :
  Forall (λ x, ∃ y, f x = (Ret y, [])) l →
  ∃ ys, for_each f l = (Ret ys, []) ∧ Forall2 (λ x y, f x = (Ret y, [])) l ys.
Proof.
  induction 1 as [|x l [y Hy] _ (ys & Hys & Hall)]; simpl.
  - by exists [].
  - exists (y :: ys). rewrite Hy, ui_bind_pure, Hys, ui_bind_pure.
    split; [done|by constructor].
Qed.

Lemma project_rows_ok (w : World) (d : GitLabDashboard) (q : pydict) :
  fetch_ok w d q →
  ∃ rows,
    project_rows w d q = (Ret rows, []) ∧
    ∀ qid body pipeline,
      q !! "id" = Some qid →
      requests_get w (project_pipelines_request d qid 5) = Ok body →
      pipeline ∈ body →
      ∃ row, make_row q pipeline = (Ret row, []) ∧ row ∈ rows.
Proof.
  intros (Hq & pid & body & Hpid & Hreq & Hbody).
  destruct (for_each_ok (make_row q) body) as (rows & Hrows & Hall).
  { eapply Forall_impl; [exact Hbody|]. intros pl Hpl. by apply make_row_ok. }
  exists rows. split.
  - destruct Hq as [[name Hname] _]. unfold project_rows.
    rewrite (subscript_Some _ _ _ Hname), ui_bind_pure.
    rewrite (subscript_Some _ _ _ Hpid), ui_bind_pure.
    rewrite get_project_pipelines_eq. by rewrite Hreq, ui_bind_mret.
  - intros qid body' pl Hqid Hreq' Hin.
    rewrite Hpid in Hqid. injection Hqid as <-.
    rewrite Hreq in Hreq'. injection Hreq' as <-.
    apply list_elem_of_lookup in Hin as [i Hi].
    destruct (Forall2_lookup_l _ _ _ _ _ Hall Hi) as (row & Hrow & Hmk).
    exists row. split; [done|]. apply list_elem_of_lookup. by exists i.
Qed.

Lemma project_rows_fails (w : World) (d : GitLabDashboard) (p : pydict) pid e :
  fetch_fails w d p pid e →
  project_rows w d p = (Ret [], [ErrorProjectPipelines pid e]).
Proof.
  intros ([[name Hname] _] & Hpid & Hreq). unfold project_rows.
  rewrite (subscript_Some _ _ _ Hname), ui_bind_pure.
  rewrite (subscript_Some _ _ _ Hpid), ui_bind_pure.
  rewrite get_project_pipelines_eq. by rewrite Hreq.
Qed.

Lemma collect_pipelines_cons (w : World) (d : GitLabDashboard) q l rows log more log' :
  project_rows w d q = (Ret rows, log) →
  collect_pipelines w d l = (Ret more, log') →
  collect_pipelines w d (q :: l) = (Ret (rows ++ more), log ++ log').
Proof.
  intros Hq Hl. simpl. rewrite Hq, ui_bind_ret, Hl, ui_bind_ret. simpl.
  by rewrite !app_nil_r.
Qed.

Lemma collect_pipelines_cons_inv (w : World) (d : GitLabDashboard) q l all log :
  collect_pipelines w d (q :: l) = (Ret all, log) →
  ∃ rows l1 more l2,
    project_rows w d q = (Ret rows, l1) ∧
    collect_pipelines w d l = (Ret more, l2) ∧
    all = rows ++ more ∧ log = l1 ++ l2.
Proof.
  simpl. intros H.
  apply bind_returns_inv in H as (rows & l1 & l' & Hq & H & ->).
  apply bind_returns_inv in H as (more & l2 & l'' & Hl & H & ->).
  injection H as <- <-. exists rows, l1, more, l2.
  by rewrite app_nil_r.
Qed.

(** The loop is a concatenation: the rows and the messages of a list of
    projects are those of its first part followed by those of the rest. *)
Lemma collect_pipelines_app (w : World) (d : GitLabDashboard) l1 l2 r1 g1 r2 g2 :
  collect_pipelines w d l1 = (Ret r1, g1) →
  collect_pipelines w d l2 = (Ret r2, g2) →
  collect_pipelines w d (l1 ++ l2) = (Ret (r1 ++ r2), g1 ++ g2).
Proof.
  revert r1 g1. induction l1 as [|q l1 IH]; intros r1 g1 H1 H2.
  - injection H1 as <- <-. done.
  - apply collect_pipelines_cons_inv in H1
      as (rows & la & more & lb & Hq & Hl & -> & ->).
    rewrite <- !app_assoc. simpl app at 1.
    apply collect_pipelines_cons; [done|]. by apply IH.
Qed.

Lemma collect_pipelines_ok (w : World) (d : GitLabDashboard) (l : list pydict) :
  Forall (fetch_ok w d) l →
  ∃ rows,
    collect_pipelines w d l = (Ret rows, []) ∧
    ∀ q qid body pipeline,
      q ∈ l →
      q !! "id" = Some qid →
      requests_get w (project_pipelines_request d qid 5) = Ok body →
      pipeline ∈ body →
      ∃ row, make_row q pipeline = (Ret row, []) ∧ row ∈ rows.
Proof.
  induction 1 as [|q l Hq _ (more & Hmore & Hin)].
  - exists []. split; [done|]. intros q qid body pl Hq. by apply elem_of_nil in Hq.
  - destruct (project_rows_ok w d q Hq) as (rows & Hrows & Hrin).
    exists (rows ++ more). split.
    + by apply (collect_pipelines_cons w d q l rows [] more []).
    + intros q' qid body pl Hq' Hid Hreq Hpl.
      apply elem_of_cons in Hq' as [->|Hq'].
      * destruct (Hrin qid body pl Hid Hreq Hpl) as (row & ? & ?).
        exists row. split; [done|]. apply elem_of_app. by left.
      * destruct (Hin q' qid body pl Hq' Hid Hreq Hpl) as (row & ? & ?).
        exists row. split; [done|]. apply elem_of_app. by right.
Qed.

(** C1, as stated, fails: the collection that the loop builds holds no
    record of the failing project.  No function of [all_pipelines_data]
    returns the failing id: a run where project 1 fails and project 2 has
    no pipeline collects the same rows as a run where project 2 fails and
    project 1 has no pipeline. *)
Lemma no_failed_projects_in_collection :
  ¬ ∃ failed_projects : list Row → list pyval,
      ∀ w d l1 p l2 pid e rows log,
        fetch_fails w d p pid e →
        Forall (fetch_ok w d) (l1 ++ l2) →
        collect_pipelines w d (l1 ++ p :: l2) = (Ret rows, log) →
        failed_projects rows = [pid].
Proof.
  intros [failed_projects H].
  assert (HA : failed_projects [] = [PInt 1]).
  { apply (H Example.world_A_fails Example.dashboard []
             Example.project_A [Example.project_B] (PInt 1) "500" [] 
             [ErrorProjectPipelines (PInt 1) "500"]).
    - repeat split; by (eexists || idtac); vm_compute.
    - constructor; [|constructor]. split; [split; by eexists; vm_compute|].
      exists (PInt 2), []. by repeat split; vm_compute.
    - by vm_compute. }
  assert (HB : failed_projects [] = [PInt 2]).
  { apply (H Example.world_B_fails Example.dashboard [Example.project_A]
             Example.project_B [] (PInt 2) "500" []
             [ErrorProjectPipelines (PInt 2) "500"]).
    - repeat split; by (eexists || idtac); vm_compute.
    - constructor; [|constructor]. split; [split; by eexists; vm_compute|].
      exists (PInt 1), []. by repeat split; vm_compute.
    - by vm_compute. }
  congruence.
Qed.

(** C1, amended. When the pipeline request of exactly one project of the
    list ends in an error and the others are answered with well-formed
    records, the loop runs to its end: it collects, in the order of the
    list, the rows of the projects before and after the failing one, with a
    row for every pipeline of every answered project, and nothing for the
    failing one; the failure is written as one error message that carries
    the id of the failing project. *)
Theorem partial_failure_tolerance (w : World) (d : GitLabDashboard)
    (l1 : list pydict) (p : pydict) (l2 : list pydict) (pid : pyval) (e : string) :
  fetch_fails w d p pid e →
  Forall (fetch_ok w d) (l1 ++ l2) →
  ∃ rows1 rows2,
    collect_pipelines w d l1 = (Ret rows1, []) ∧
    collect_pipelines w d l2 = (Ret rows2, []) ∧
    collect_pipelines w d (l1 ++ p :: l2)
      = (Ret (rows1 ++ rows2), [ErrorProjectPipelines pid e]) ∧
    collect_pipelines w d (l1 ++ l2) = (Ret (rows1 ++ rows2), []) ∧
    ∀ q qid body pipeline,
      q ∈ l1 ++ l2 →
      q !! "id" = Some qid →
      requests_get w (project_pipelines_request d qid 5) = Ok body →
      pipeline ∈ body →
      ∃ row, make_row q pipeline = (Ret row, []) ∧ row ∈ rows1 ++ rows2.
Proof.
  intros Hp Hok. apply Forall_app in Hok as [Hok1 Hok2].
  destruct (collect_pipelines_ok w d l1 Hok1) as (rows1 & H1 & Hin1).
  destruct (collect_pipelines_ok w d l2 Hok2) as (rows2 & H2 & Hin2).
  exists rows1, rows2. split; [done|]. split; [done|]. split; [|split].
  - apply (collect_pipelines_app w d l1 (p :: l2) rows1 [] rows2
             [ErrorProjectPipelines pid e]); [done|].
    apply (collect_pipelines_cons w d p l2 [] [ErrorProjectPipelines pid e] rows2 []);
      [|done].
    by apply project_rows_fails.
  - by apply (collect_pipelines_app w d l1 l2 rows1 [] rows2 []).
  - intros q qid body pl Hq Hid Hreq Hpl.
    apply elem_of_app in Hq as [Hq|Hq].
    + destruct (Hin1 q qid body pl Hq Hid Hreq Hpl) as (row & ? & ?).
      exists row. split; [done|]. apply elem_of_app. by left.
    + destruct (Hin2 q qid body pl Hq Hid Hreq Hpl) as (row & ? & ?).
      exists row. split; [done|]. apply elem_of_app. by right.
Qed.

Lemma partial_failure_tolerance_witness :
  ∃ rows1 rows2,
    collect_pipelines Example.world_one_fails Example.dashboard [Example.project_A]
      = (Ret rows1, []) ∧
    collect_pipelines Example.world_one_fails Example.dashboard [] = (Ret rows2, []) ∧
    collect_pipelines Example.world_one_fails Example.dashboard
        ([Example.project_A] ++ Example.project_B :: [])
      = (Ret (rows1 ++ rows2), [ErrorProjectPipelines (PInt 2) "500"]) ∧
    collect_pipelines Example.world_one_fails Example.dashboard ([Example.project_A] ++ [])
      = (Ret (rows1 ++ rows2), []) ∧
    ∀ q qid body pipeline,
      q ∈ [Example.project_A] ++ [] →
      q !! "id" = Some qid →
      requests_get Example.world_one_fails
        (project_pipelines_request Example.dashboard qid 5) = Ok body →
      pipeline ∈ body →
      ∃ row, make_row q pipeline = (Ret row, []) ∧ row ∈ rows1 ++ rows2.
Proof.
  apply (partial_failure_tolerance Example.world_one_fails Example.dashboard
           [Example.project_A] Example.project_B [] (PInt 2) "500").
  - split; [split; eexists; vm_compute; reflexivity|].
    split; vm_compute; reflexivity.
  - constructor; [|constructor].
    split; [split; eexists; vm_compute; reflexivity|].
    exists (PInt 1), [Example.pipeline_10].
    split; [vm_compute; reflexivity|]. split; [vm_compute; reflexivity|].
    constructor; [|constructor].
    split; [eexists; vm_compute; reflexivity|].
    split; [eexists; vm_compute; reflexivity|].
    split; [eexists; vm_compute; reflexivity|].
    vm_compute. exact I.
Defined.

(** C3, as stated, fails: the list is walked as it is.  With one pipeline
    in project 1, the list [[P1; P1; P2]] collects that pipeline twice. *)
Lemma duplicate_projects_not_merged :
  collect_pipelines Example.world_all_ok Example.dashboard
    [Example.project_A; Example.project_A; Example.project_B]
  ≠ collect_pipelines Example.world_all_ok Example.dashboard
    [Example.project_A; Example.project_B].
Proof. vm_compute. discriminate. Qed.

(** C3, amended. A project that occurs twice in the list is fetched twice
    and contributes its rows and its messages twice: the list
    [[P1; P1; P2]] yields the rows of P1, the rows of P1 again, then the
    rows of P2, where [[P1; P2]] yields the rows of P1 then those of P2. *)
Theorem duplicate_projects_are_kept (w : World) (d : GitLabDashboard)
    (p1 p2 : pydict) (rows1 rows2 : list Row) (log1 log2 : list ui_event) :
  project_rows w d p1 = (Ret rows1, log1) →
  project_rows w d p2 = (Ret rows2, log2) →
  collect_pipelines w d [p1; p1; p2]
    = (Ret (rows1 ++ rows1 ++ rows2), log1 ++ log1 ++ log2) ∧
  collect_pipelines w d [p1; p2] = (Ret (rows1 ++ rows2), log1 ++ log2).
Proof.
  intros H1 H2.
  assert (Hl2 : collect_pipelines w d [p2] = (Ret rows2, log2)).
  { rewrite <- (app_nil_r rows2), <- (app_nil_r log2).
    by apply collect_pipelines_cons. }
  assert (Hl12 : collect_pipelines w d [p1; p2] = (Ret (rows1 ++ rows2), log1 ++ log2)).
  { by apply collect_pipelines_cons. }
  split; [|done]. by apply collect_pipelines_cons.
Qed.

Lemma duplicate_projects_are_kept_witness :
  collect_pipelines Example.world_all_ok Example.dashboard
      [Example.project_A; Example.project_A; Example.project_B]
    = (Ret ([Example.row_10] ++ [Example.row_10] ++ [Example.row_20]), [] ++ [] ++ []) ∧
  collect_pipelines Example.world_all_ok Example.dashboard
      [Example.project_A; Example.project_B]
    = (Ret ([Example.row_10] ++ [Example.row_20]), [] ++ []).
Proof.
  apply (duplicate_projects_are_kept Example.world_all_ok Example.dashboard
           Example.project_A Example.project_B
           [Example.row_10] [Example.row_20] [] []);
    vm_compute; reflexivity.
Defined.

(** ** The group request *)

Lemma log_all_mret {A} (P : ui_event → Prop) (a : A) : log_all P (mret a : ui A).
Proof. constructor. Qed.

Lemma log_all_raise {A} (P : ui_event → Prop) (e : exn) : log_all P (raise e : ui A).
Proof. constructor. Qed.

Lemma log_all_tell (P : ui_event → Prop) (ev : ui_event) : P ev → log_all P (tell ev).
Proof. intros H. by repeat constructor. Qed.

Lemma log_all_bind {A B} (P : ui_event → Prop) (m : ui A) (k : A → ui B) :
  log_all P m → (∀ a, log_all P (k a)) → log_all P (m ≫= k).
Proof.
  destruct m as [[a|e] l1]; intros Hm Hk; [|done].
  rewrite ui_bind_ret. apply Forall_app. split; [done|apply Hk].
Qed.

Lemma log_all_for_each {A B} (P : ui_event → Prop) (f : A → ui B) (l : list A) :
  (∀ x, log_all P (f x)) → log_all P (for_each f l).
Proof.
  intros Hf. induction l as [|x l IH]; simpl.
  - apply log_all_mret.
  - apply log_all_bind; [apply Hf|]. intros y.
    apply log_all_bind; [apply IH|]. intros ys. apply log_all_mret.
Qed.

Lemma log_all_subscript (P : ui_event → Prop) (d : pydict) (k : string) :
  log_all P (subscript d k).
Proof. unfold subscript. destruct (d !! k); constructor. Qed.

Lemma log_all_get_status_color (P : ui_event → Prop) (v : pyval) :
  log_all P (get_status_color v).
Proof. rewrite get_status_color_IndexError. constructor. Qed.

Lemma log_all_user_name (P : ui_event → Prop) (pipeline : pydict) :
  log_all P (user_name pipeline).
Proof.
  unfold user_name. destruct (truthy _); [|constructor].
  destruct (dict_get _ _ _); constructor.
Qed.

Create HintDb log.

#[local] Hint Resolve log_all_mret log_all_raise log_all_subscript
  log_all_get_status_color log_all_user_name : log.

Ltac log_step :=
  first [ solve [auto with log]
        | apply log_all_tell; by intros []
        | apply log_all_for_each; intros ?
        | apply log_all_bind; [|intros ?] ].

Lemma quiet_get_project_pipelines (w : World) (d : GitLabDashboard) pid n :
  quiet (get_project_pipelines w d pid n).
Proof.
  rewrite get_project_pipelines_eq. destruct (requests_get _ _); repeat log_step.
Qed.

Lemma quiet_get_pipeline_jobs (w : World) (d : GitLabDashboard) pid plid :
  quiet (get_pipeline_jobs w d pid plid).
Proof. rewrite get_pipeline_jobs_IndexError. constructor. Qed.

#[local] Hint Resolve quiet_get_project_pipelines quiet_get_pipeline_jobs : log.

Lemma quiet_collect_pipelines (w : World) (d : GitLabDashboard) (projects : list pydict) :
  quiet (collect_pipelines w d projects).
Proof. induction projects as [|q l IH]; simpl; repeat log_step. Qed.

Lemma quiet_render_overview (w : World) (data : list Row) :
  quiet (render_overview w data).
Proof. unfold render_overview. destruct data; repeat log_step. Qed.

Lemma quiet_render_pending (w : World) (d : GitLabDashboard) (data : list Row) :
  quiet (render_pending w d data).
Proof.
  unfold render_pending. destruct (pending_pipelines data); repeat log_step.
Qed.

Lemma quiet_render_successes (w : World) (data : list Row) :
  quiet (render_successes w data).
Proof.
  unfold render_successes. destruct (success_pipelines data); repeat log_step.
Qed.

#[local] Hint Resolve quiet_collect_pipelines quiet_render_overview
  quiet_render_pending quiet_render_successes : log.

(** Once the group has answered, nothing on the page is about the group
    request. *)
Lemma render_tabs_not_about_group (w : World) (d : GitLabDashboard)
    (projects : list pydict) :
  quiet (render_tabs w d projects).
Proof. unfold render_tabs. repeat log_step. Qed.

(** The four ways a run of the script ends. *)
Lemma main_cases (w : World) (cfg : config) (r : res outcome) (log : list ui_event) :
  main w cfg = (r, log) →
  (r = Ret Rerun ∧ log = []) ∨
  (r = Ret MissingConfig ∧ log = [WarningMissingConfig]) ∨
  (r = Ret NoProjectsFound ∧
     (log = [ErrorNoProjects] ∨ ∃ e, log = [ErrorGroupProjects e; ErrorNoProjects])) ∨
  (((∃ v, r = Ret (Rendered v)) ∨ (∃ x, r = Raise x)) ∧
     Forall (λ ev, ¬ about_group ev) log).
Proof.
  unfold main.
  destruct (cfg_auto_refresh cfg); [intros [= <- <-]; by left|].
  destruct (cfg_refresh_now cfg); [intros [= <- <-]; by left|].
  destruct (config_complete cfg); simpl; [|intros [= <- <-]; right; by left].
  set (d := GitLabDashboard_init _ _).
  rewrite get_group_projects_eq.
  destruct (requests_get _ _) as [[|q projects]|e].
  - intros [= <- <-]. right; right; left. split; [done|by left].
  - rewrite ui_bind_mret.
    pose proof (render_tabs_not_about_group w d (q :: projects)) as Hquiet.
    destruct (render_tabs w d (q :: projects)) as [[v|x] l]; simpl in Hquiet.
    + rewrite ui_bind_ret. simpl. intros [= <- <-].
      right; right; right. split; [left; by eexists|by rewrite app_nil_r].
    + intros [= <- <-]. right; right; right. split; [right; by eexists|done].
  - intros [= <- <-]. right; right; left. split; [done|right; by eexists].
Qed.

(** C4. When the request for the projects of the group ends in an error,
    the script stops before the loop: it writes the error of the group
    request and "No projects found or unable to access the group.", and
    shows no tab.  A run in which the request of a project failed never
    ends that way: it shows the tabs (or dies of an exception) and none of
    its messages is about the group request. *)
Theorem group_fetch_failure_is_fatal (w : World) (cfg : config) (e : string) :
  cfg_auto_refresh cfg = false →
  cfg_refresh_now cfg = false →
  config_complete cfg = true →
  requests_get w
    (group_projects_request
       (GitLabDashboard_init (cfg_gitlab_url cfg) (cfg_access_token cfg))
       (cfg_group_id cfg)) = RequestException e →
  main w cfg = (Ret NoProjectsFound, [ErrorGroupProjects e; ErrorNoProjects]) ∧
  ∀ w' cfg' r log pid e',
    main w' cfg' = (r, log) →
    ErrorProjectPipelines pid e' ∈ log →
    ((∃ v, r = Ret (Rendered v)) ∨ (∃ x, r = Raise x)) ∧
    Forall (λ ev, ¬ about_group ev) log.
Proof.
  intros Hauto Hnow Hcfg Hreq. split.
  - unfold main. rewrite Hauto, Hnow, Hcfg. simpl.
    rewrite get_group_projects_eq. by rewrite Hreq.
  - intros w' cfg' r log pid e' Hmain Hin.
    apply main_cases in Hmain as [[_ ->]|[[_ ->]|[[_ Hlog]|H]]]; [| | |done].
    + by apply elem_of_nil in Hin.
    + apply list_elem_of_singleton in Hin. discriminate.
    + destruct Hlog as [->|[e'' ->]].
      * apply list_elem_of_singleton in Hin. discriminate.
      * apply elem_of_cons in Hin as [Hin|Hin]; [discriminate|].
        apply list_elem_of_singleton in Hin. discriminate.
Qed.

Lemma group_fetch_failure_is_fatal_witness :
  main Example.world_group_fails Example.cfg
    = (Ret NoProjectsFound, [ErrorGroupProjects "401"; ErrorNoProjects]) ∧
  ∀ w' cfg' r log pid e',
    main w' cfg' = (r, log) →
    ErrorProjectPipelines pid e' ∈ log →
    ((∃ v, r = Ret (Rendered v)) ∨ (∃ x, r = Raise x)) ∧
    Forall (λ ev, ¬ about_group ev) log.
Proof.
  apply (group_fetch_failure_is_fatal Example.world_group_fails Example.cfg "401");
    vm_compute; reflexivity.
Defined.

(** ** The pending tab and the jobs *)

(** C6. The job request is never sent: the first statement of
    [get_pipeline_jobs], its 32-character docstring subscripted with
    [[36]], raises [IndexError] outside the [try], for every project and
    pipeline.  So a failing job request does not yield the empty list, and
    the pending tab of a collection with a running pipeline ends in that
    exception instead of showing its expanders. *)
Theorem get_pipeline_jobs_raises (w : World) (d : GitLabDashboard)
    (project_id pipeline_id : pyval) :
  String.length "Get jobs for a specific pipeline" = 32%nat ∧
  str_subscript "Get jobs for a specific pipeline" 36 = (Raise IndexError, []) ∧
  get_pipeline_jobs w d project_id pipeline_id = (Raise IndexError, []) ∧
  get_pipeline_jobs w d project_id pipeline_id ≠ (Ret [], []) ∧
  requests_get Example.world_all_ok
    (pipeline_jobs_request Example.dashboard (PInt 2) (PInt 20))
    = RequestException "404" ∧
  get_pipeline_jobs Example.world_all_ok Example.dashboard (PInt 2) (PInt 20)
    = (Raise IndexError, []) ∧
  render_pending Example.world_all_ok Example.dashboard Example.rows
    = (Raise IndexError, []).
Proof.
  split; [reflexivity|]. split; [reflexivity|]. split; [reflexivity|].
  split; [discriminate|]. repeat split; by vm_compute.
Qed.

(** ** The metrics and the views *)

Lemma py_eq_str_true (v : pyval) (s : string) :
  py_eq_str v s = true ↔ v = PStr s.
Proof.
  destruct v; simpl; try (split; [discriminate|by intros [=]]).
  destruct (String.eqb_spec s0 s) as [->|Hne]; split; try done.
  by intros [= ->].
Qed.

Lemma elem_of_success_pipelines (data : list Row) (r : Row) :
  r ∈ success_pipelines data ↔ r ∈ data ∧ Status r = PStr "success".
Proof.
  unfold success_pipelines.
  rewrite list_elem_of_In, filter_In, <- list_elem_of_In.
  by rewrite py_eq_str_true.
Qed.

(** C7. Given that pandas sorts the successful rows (its answer is a
    rearrangement of them in which every row stands before the rows with a
    smaller or missing ['Updated']), the rows of the third tab are the
    first ten of the sorted successful rows: each is a row of the
    collection with status "success", they are at most ten, all of them
    when there are no more than ten, they are in descending order of
    ['Updated'], and no successful row left out is more recent than a row
    shown.  The tab shows one block for each of these rows. *)
Theorem recent_successes_view (w : World) (data : list Row) :
  sort_values_Updated_desc w (success_pipelines data) ≡ₚ success_pipelines data →
  StronglySorted updated_desc (sort_values_Updated_desc w (success_pipelines data)) →
  recent_successes w data
    = take 10 (sort_values_Updated_desc w (success_pipelines data)) ∧
  (∀ r, r ∈ recent_successes w data → r ∈ data ∧ Status r = PStr "success") ∧
  length (recent_successes w data) = (10 `min` count_status "success" data)%nat ∧
  StronglySorted updated_desc (recent_successes w data) ∧
  (∃ rest,
     recent_successes w data ++ rest ≡ₚ success_pipelines data ∧
     (count_status "success" data ≤ 10 → rest = [])%nat ∧
     ∀ r r', r ∈ recent_successes w data → r' ∈ rest → updated_desc r r') ∧
  ∃ log,
    render_successes w data
      = (Ret (make_success_entry w <$> recent_successes w data), log).
Proof.
  intros Hperm Hsorted.
  set (sorted := sort_values_Updated_desc w (success_pipelines data)) in *.
  assert (Hview : recent_successes w data = take 10 sorted).
  { unfold recent_successes. subst sorted.
    destruct (success_pipelines data) eqn:Hs; [|done].
    apply Permutation_nil_r in Hperm. by rewrite Hperm. }
  assert (Hlen : length sorted = count_status "success" data).
  { unfold count_status. fold (success_pipelines data).
    by apply Permutation_length. }
  rewrite Hview. split; [done|]. split; [|split; [|split; [|split]]].
  - intros r Hr. apply elem_of_success_pipelines. rewrite <- Hperm.
    apply elem_of_take in Hr as (i & Hi & _). by eapply list_elem_of_lookup_2.
  - by rewrite length_take, Hlen.
  - rewrite <- (take_drop 10 sorted) in Hsorted.
    by apply StronglySorted_app_1_l in Hsorted.
  - exists (drop 10 sorted). split; [by rewrite take_drop|]. split.
    + intros Hle. apply drop_ge. lia.
    + intros r r' Hr Hr'. eapply StronglySorted_app_1_elem_of; [|done..].
      by rewrite take_drop.
  - rewrite <- Hview. clear. unfold render_successes, recent_successes.
    destruct (success_pipelines data); by eexists.
Qed.

Lemma recent_successes_view_witness :
  recent_successes Example.world_all_ok Example.rows
    = take 10 (sort_values_Updated_desc Example.world_all_ok
                 (success_pipelines Example.rows)) ∧
  (∀ r, r ∈ recent_successes Example.world_all_ok Example.rows →
        r ∈ Example.rows ∧ Status r = PStr "success") ∧
  length (recent_successes Example.world_all_ok Example.rows)
    = (10 `min` count_status "success" Example.rows)%nat ∧
  StronglySorted updated_desc (recent_successes Example.world_all_ok Example.rows) ∧
  (∃ rest,
     recent_successes Example.world_all_ok Example.rows ++ rest
       ≡ₚ success_pipelines Example.rows ∧
     (count_status "success" Example.rows ≤ 10 → rest = [])%nat ∧
     ∀ r r', r ∈ recent_successes Example.world_all_ok Example.rows →
             r' ∈ rest → updated_desc r r') ∧
  ∃ log,
    render_successes Example.world_all_ok Example.rows
      = (Ret (make_success_entry Example.world_all_ok
                <$> recent_successes Example.world_all_ok Example.rows), log).
Proof.
  apply (recent_successes_view Example.world_all_ok Example.rows).
  - vm_compute. apply perm_swap.
  - vm_compute. repeat constructor.
Defined.

Lemma pending_or_running (v : pyval) :
  py_in_strs v ["pending"; "created"; "running"]
    = py_in_strs v ["pending"; "created"] || py_eq_str v "running".
Proof. unfold py_in_strs. simpl. by rewrite !orb_false_r, orb_assoc. Qed.

Lemma pending_not_running (v : pyval) :
  py_in_strs v ["pending"; "created"] = true → py_eq_str v "running" = false.
Proof.
  unfold py_in_strs. simpl. rewrite orb_false_r.
  intros [H|H]%orb_true_iff; apply py_eq_str_true in H; by subst.
Qed.

(** The pending view is made of the rows the metric counts and of the
    running rows. *)
Lemma pending_view_size (data : list Row) :
  length (pending_pipelines data)
    = (pending_count data + count_status "running" data)%nat.
Proof.
  unfold pending_pipelines, pending_count, count_status.
  induction data as [|r data IH]; [done|]. cbn [List.filter].
  rewrite pending_or_running.
  destruct (py_in_strs (Status r) ["pending"; "created"]) eqn:Hp.
  - rewrite (pending_not_running _ Hp). cbn [orb length]. by rewrite IH.
  - destruct (py_eq_str (Status r) "running"); cbn [orb length]; rewrite IH; lia.
Qed.

(** C9. The "Pending" metric counts the rows whose status is "pending" or
    "created"; the pending tab lists those and the running rows as well.
    So the tab has as many rows as the metric and the "Running" metric
    together, and with a running pipeline in the collection the metric is
    strictly smaller than the number of rows of the tab. *)
Theorem pending_metric_excludes_running (data : list Row) :
  (∃ r, r ∈ data ∧ Status r = PStr "running") →
  (∀ r, r ∈ pending_pipelines data ↔
        r ∈ data ∧ (Status r = PStr "pending" ∨ Status r = PStr "created"
                    ∨ Status r = PStr "running")) ∧
  pending_count data
    = length (List.filter (λ r, py_eq_str (Status r) "pending"
                               || py_eq_str (Status r) "created") data) ∧
  length (pending_pipelines data)
    = (pending_count data + count_status "running" data)%nat ∧
  (pending_count data < length (pending_pipelines data))%nat.
Proof.
  intros (r & Hr & Hst). split; [|split; [|split]].
  - intros x. unfold pending_pipelines.
    rewrite list_elem_of_In, filter_In, <- list_elem_of_In.
    unfold py_in_strs. simpl.
    rewrite orb_false_r, !orb_true_iff, !py_eq_str_true. tauto.
  - unfold pending_count. f_equal. apply filter_ext.
    intros x. unfold py_in_strs. simpl. by rewrite orb_false_r.
  - apply pending_view_size.
  - rewrite pending_view_size.
    assert (r ∈ List.filter (λ x, py_eq_str (Status x) "running") data) as Hin.
    { apply list_elem_of_In, filter_In. split; [by apply list_elem_of_In|].
      by apply py_eq_str_true. }
    unfold count_status.
    destruct (List.filter _ data); [by apply elem_of_nil in Hin|simpl; lia].
Qed.

Lemma pending_metric_excludes_running_witness :
  (∀ r, r ∈ pending_pipelines Example.rows ↔
        r ∈ Example.rows ∧ (Status r = PStr "pending" ∨ Status r = PStr "created"
                            ∨ Status r = PStr "running")) ∧
  pending_count Example.rows
    = length (List.filter (λ r, py_eq_str (Status r) "pending"
                               || py_eq_str (Status r) "created") Example.rows) ∧
  length (pending_pipelines Example.rows)
    = (pending_count Example.rows + count_status "running" Example.rows)%nat ∧
  (pending_count Example.rows < length (pending_pipelines Example.rows))%nat.
Proof.
  apply (pending_metric_excludes_running Example.rows).
  exists Example.row_20. split; [|reflexivity].
  apply list_elem_of_further, list_elem_of_here.
Defined.

(** * Further properties of the code *)

(** ** The constructor and its URL *)

Lemma str_rstrip_snoc (c : ascii) (s : string) :
  str_rstrip c (s +:+ String c EmptyString) = str_rstrip c s.
Proof.
  induction s as [|a s IH]; simpl.
  - by rewrite Ascii.eqb_refl.
  - by rewrite IH.
Qed.

Lemma string_append_cons (a : ascii) (s t : string) :
  String a s +:+ t = String a (s +:+ t).
Proof. reflexivity. Qed.

Lemma string_append_empty (s : string) : s +:+ EmptyString = s.
Proof. induction s as [|a s IH]; [done|]. by rewrite string_append_cons, IH. Qed.

Lemma string_append_snoc (s t : string) (c : ascii) :
  (s +:+ String c EmptyString) +:+ t = s +:+ String c t.
Proof. induction s as [|a s IH]; [done|]. by rewrite !string_append_cons, IH. Qed.

Lemma str_rstrip_repeat (c : ascii) (s : string) (n : nat) :
  str_rstrip c (s +:+ str_repeat c n) = str_rstrip c s.
Proof.
  revert s. induction n as [|n IH]; intros s; simpl.
  - by rewrite string_append_empty.
  - by rewrite <- string_append_snoc, IH, str_rstrip_snoc.
Qed.

Lemma append_snoc_not_empty (t : string) (c : ascii) :
  EmptyString ≠ t +:+ String c EmptyString.
Proof. by destruct t. Qed.

Lemma str_rstrip_decompose (c : ascii) (s : string) :
  ∃ n, s = str_rstrip c s +:+ str_repeat c n.
Proof.
  induction s as [|a s [n IH]]; [by exists O|]. simpl.
  destruct (str_rstrip c s) as [|b r] eqn:Hr.
  - destruct (Ascii.eqb_spec a c) as [->|Hne].
    + exists (S n). simpl. by rewrite IH at 1.
    + exists n. rewrite string_append_cons. by rewrite IH at 1.
  - exists n. rewrite string_append_cons. by rewrite IH at 1.
Qed.

Lemma str_rstrip_no_trailing (c : ascii) (s t : string) :
  str_rstrip c s ≠ t +:+ String c EmptyString.
Proof.
  revert t. induction s as [|a s IH]; intros t; simpl.
  - apply append_snoc_not_empty.
  - destruct (str_rstrip c s) as [|b r] eqn:Hr.
    + destruct (Ascii.eqb_spec a c) as [->|Hne].
      * apply append_snoc_not_empty.
      * destruct t as [|a' t].
        -- change (String a EmptyString ≠ String c EmptyString). congruence.
        -- rewrite string_append_cons. intros [= _ H].
           by apply append_snoc_not_empty in H.
    + destruct t as [|a' t].
      * change (String a (String b r) ≠ String c EmptyString). congruence.
      * rewrite string_append_cons. intros [= _ H]. by apply (IH t).
Qed.

(** X1. [rstrip('/')] removes exactly the trailing slashes: the URL is the
    stripped text followed by slashes only, the stripped text does not end
    in a slash, and stripping it again changes nothing. *)
Theorem str_rstrip_spec (c : ascii) (s : string) :
  (∃ n, s = str_rstrip c s +:+ str_repeat c n) ∧
  (∀ t, str_rstrip c s ≠ t +:+ String c EmptyString) ∧
  str_rstrip c (str_rstrip c s) = str_rstrip c s.
Proof.
  split; [apply str_rstrip_decompose|]. split; [apply str_rstrip_no_trailing|].
  destruct (str_rstrip_decompose c s) as [n Hn].
  rewrite Hn at 2. by rewrite str_rstrip_repeat.
Qed.

(** X2. Trailing slashes of the GitLab URL make no difference: the
    dashboard built from a URL with any number of slashes appended is the
    dashboard built from the URL itself, so it sends the same requests. *)
Theorem trailing_slashes_ignored (url token : string) (n : nat) :
  GitLabDashboard_init (url +:+ str_repeat "/" n) token
    = GitLabDashboard_init url token ∧
  ∀ group_id project_id pipeline_id per_page,
    group_projects_request (GitLabDashboard_init (url +:+ str_repeat "/" n) token) group_id
      = group_projects_request (GitLabDashboard_init url token) group_id ∧
    project_pipelines_request
        (GitLabDashboard_init (url +:+ str_repeat "/" n) token) project_id per_page
      = project_pipelines_request (GitLabDashboard_init url token) project_id per_page ∧
    pipeline_jobs_request
        (GitLabDashboard_init (url +:+ str_repeat "/" n) token) project_id pipeline_id
      = pipeline_jobs_request (GitLabDashboard_init url token) project_id pipeline_id.
Proof.
  assert (H : GitLabDashboard_init (url +:+ str_repeat "/" n) token
              = GitLabDashboard_init url token).
  { unfold GitLabDashboard_init. by rewrite str_rstrip_repeat. }
  split; [done|]. intros. by rewrite H.
Qed.

(** ** The replacement of the zone letter *)

Lemma string_length_append (a b : string) :
  String.length (a +:+ b) = (String.length a + String.length b)%nat.
Proof.
  induction a as [|x a IH]; [done|]. rewrite string_append_cons. simpl. by rewrite IH.
Qed.

Lemma count_char_append (c : ascii) (a b : string) :
  count_char c (a +:+ b) = (count_char c a + count_char c b)%nat.
Proof.
  induction a as [|x a IH]; [done|]. rewrite string_append_cons. simpl.
  rewrite IH. lia.
Qed.

(** X3. [dt_string.replace('Z', '+00:00')] rewrites every [Z] of the
    string, wherever it stands, not only a final one: the result holds no
    [Z], it is five characters longer for each [Z] of the input, and a
    string without [Z] is handed to the parser as it is. *)
Theorem replace_Z_everywhere (s : string) :
  count_char "Z" (str_replace "Z" "+00:00" s) = O ∧
  String.length (str_replace "Z" "+00:00" s)
    = (String.length s + 5 * count_char "Z" s)%nat ∧
  (count_char "Z" s = O → str_replace "Z" "+00:00" s = s).
Proof.
  split; [|split].
  - induction s as [|a s IH]; [done|]. simpl.
    destruct (Ascii.eqb_spec a "Z") as [->|Hne].
    + by rewrite count_char_append, IH.
    + simpl. apply Ascii.eqb_neq in Hne. by rewrite Hne, IH.
  - induction s as [|a s IH]; [done|]. simpl.
    destruct (Ascii.eqb a "Z").
    + rewrite string_length_append, IH. simpl. lia.
    + simpl. rewrite IH. lia.
  - induction s as [|a s IH]; [done|]. simpl.
    destruct (Ascii.eqb a "Z"); [discriminate|].
    simpl. intros H. by rewrite IH.
Qed.

(** ** The elapsed time, away from the boundaries *)

Lemma get_time_ago_parsed (w : World) (s : string) (dt : datetime) :
  s ≠ "" →
  fromisoformat w (str_replace "Z" "+00:00" s) = Some dt →
  get_time_ago w (PStr s)
    = time_ago_of_delta
        (timedelta_of_us (wall_us (datetime_now w (tzinfo dt)) - wall_us dt)).
Proof.
  intros Hne Hparse. unfold get_time_ago, parse_dt_string.
  by rewrite (truthy_PStr s Hne), Hparse.
Qed.

(** X4. For a timestamp that parses and lies [d] whole seconds (and a
    fraction) in the past, the elapsed-time routine answers with the whole
    days when [d] is at least 86400, else with the whole hours when [d]
    exceeds 3600, else with the whole minutes when [d] exceeds 60, else
    "Just now"; the numbers are floor divisions. *)
Theorem get_time_ago_buckets (w : World) (s : string) (dt : datetime) (d f : Z) :
  s ≠ "" →
  fromisoformat w (str_replace "Z" "+00:00" s) = Some dt →
  wall_us (datetime_now w (tzinfo dt)) - wall_us dt = d * 1000000 + f →
  0 ≤ d →
  0 ≤ f < 1000000 →
  get_time_ago w (PStr s) =
    if 86400 <=? d then pretty (d / 86400) +:+ " days ago"
    else if 3600 <? d then pretty (d / 3600) +:+ " hours ago"
    else if 60 <? d then pretty (d / 60) +:+ " minutes ago"
    else "Just now".
Proof.
  intros Hne Hparse Hdiff Hd Hf.
  rewrite (get_time_ago_parsed w s dt Hne Hparse), Hdiff.
  by apply time_ago_of_seconds.
Qed.

Lemma get_time_ago_buckets_witness :
  get_time_ago Scenario.world_clock (PStr "2024-01-01T12:00:00Z") =
    if 86400 <=? 43200 then pretty (43200 / 86400) +:+ " days ago"
    else if 3600 <? 43200 then pretty (43200 / 3600) +:+ " hours ago"
    else if 60 <? 43200 then pretty (43200 / 60) +:+ " minutes ago"
    else "Just now".
Proof.
  apply (get_time_ago_buckets Scenario.world_clock "2024-01-01T12:00:00Z"
           (Example.utc 2024 1 1 12 0 0) 43200 0).
  - discriminate.
  - vm_compute. reflexivity.
  - vm_compute. reflexivity.
  - lia.
  - lia.
Defined.

(** X5. A timestamp that lies in the future is never worded in days: the
    difference has a negative [days] field, so the routine words its
    [seconds] field, the time of day of the difference.  One second ahead
    of now reads "23 hours ago". *)
Theorem get_time_ago_future (w : World) (s : string) (dt : datetime) (us : Z) :
  s ≠ "" →
  fromisoformat w (str_replace "Z" "+00:00" s) = Some dt →
  wall_us (datetime_now w (tzinfo dt)) - wall_us dt = us →
  us < 0 →
  get_time_ago w (PStr s) =
    let sec := (us / 1000000) mod 86400 in
    if 3600 <? sec then pretty (sec / 3600) +:+ " hours ago"
    else if 60 <? sec then pretty (sec / 60) +:+ " minutes ago"
    else "Just now".
Proof.
  intros Hne Hparse Hdiff Hneg.
  rewrite (get_time_ago_parsed w s dt Hne Hparse), Hdiff.
  unfold time_ago_of_delta, timedelta_of_us. simpl.
  assert (us / 86400000000 < 0) by (apply Z.div_lt_upper_bound; lia).
  destruct (Z.gtb_spec (us / 86400000000) 0); [lia|].
  by rewrite !Z.gtb_ltb.
Qed.

Lemma get_time_ago_future_witness :
  get_time_ago Scenario.world_clock (PStr "2024-01-02T00:00:01Z") =
    let sec := (-1000000 / 1000000) mod 86400 in
    if 3600 <? sec then pretty (sec / 3600) +:+ " hours ago"
    else if 60 <? sec then pretty (sec / 60) +:+ " minutes ago"
    else "Just now".
Proof.
  apply (get_time_ago_future Scenario.world_clock "2024-01-02T00:00:01Z"
           (Example.utc 2024 1 2 0 0 1) (-1000000)).
  - discriminate.
  - vm_compute. reflexivity.
  - vm_compute. reflexivity.
  - lia.
Defined.

(** X6. A truthy value that is not a string (a number, a list, an object
    in the JSON) has no [replace]; the bare [except] catches that, so the
    formatting routine hands the value back as it is and the elapsed-time
    routine answers "N/A". *)
Theorem non_string_timestamp (w : World) (v : pyval) :
  truthy v = true →
  (∀ s, v ≠ PStr s) →
  format_datetime w v = v ∧ get_time_ago w v = "N/A".
Proof.
  intros Ht Hns. unfold format_datetime, get_time_ago. rewrite Ht. simpl.
  destruct v; try done. by destruct (Hns s).
Qed.

Lemma non_string_timestamp_witness :
  format_datetime Example.world_all_ok (PInt 1704150000) = PInt 1704150000 ∧
  get_time_ago Example.world_all_ok (PInt 1704150000) = "N/A".
Proof.
  apply (non_string_timestamp Example.world_all_ok (PInt 1704150000)).
  - reflexivity.
  - discriminate.
Defined.

(** ** The rows and the messages of the loop *)

Lemma log_all_False_nil {A} (m : ui A) : log_all (λ _, False) m → m.2 = [].
Proof. unfold log_all. destruct (m.2); [done|]. by intros [[] _]%Forall_cons. Qed.

Lemma make_row_silent (q pl : pydict) (r : res Row) (lg : list ui_event) :
  make_row q pl = (r, lg) → lg = [].
Proof.
  intros H. change lg with (r, lg).2. rewrite <- H.
  apply log_all_False_nil. unfold make_row. repeat log_step.
Qed.

Lemma for_each_make_row_silent (q : pydict) (body : list pydict) :
  (for_each (make_row q) body).2 = [].
Proof.
  apply log_all_False_nil. apply log_all_for_each. intros pl.
  unfold make_row. repeat log_step.
Qed.

Lemma for_each_returns_inv {A B} (f : A → ui B) (l : list A) ys lg :
  for_each f l = (Ret ys, lg) →
  Forall2 (λ x y, ∃ g, f x = (Ret y, g)) l ys.
Proof.
  revert ys lg. induction l as [|x l IH]; intros ys lg; simpl.
  - intros [= <- _]. constructor.
  - intros H.
    apply bind_returns_inv in H as (y & l1 & l' & Hy & H & _).
    apply bind_returns_inv in H as (ys' & l2 & l'' & Hys & H & _).
    injection H as <- _. constructor; [by eexists|by eapply IH].
Qed.

(** X7. The row of a pipeline needs the keys ["id"], ["status"] and
    ["ref"] of the record: when one is missing the row is not built and a
    [KeyError] names the first missing key, in that order. *)
Theorem make_row_key_errors (project pipeline : pydict) :
  project_ok project →
  match pipeline !! "id", pipeline !! "status", pipeline !! "ref" with
  | None, _, _ => make_row project pipeline = (Raise (KeyError "id"), [])
  | Some _, None, _ => make_row project pipeline = (Raise (KeyError "status"), [])
  | Some _, Some _, None => make_row project pipeline = (Raise (KeyError "ref"), [])
  | Some _, Some _, Some _ =>
      ∀ e, make_row project pipeline ≠ (Raise (KeyError e), [])
  end.
Proof.
  intros [[name Hname] [pid Hpid]]. unfold make_row.
  rewrite (subscript_Some _ _ _ Hname), ui_bind_pure.
  rewrite (subscript_Some _ _ _ Hpid), ui_bind_pure.
  unfold subscript.
  destruct (pipeline !! "id") as [plid|]; [|reflexivity].
  destruct (pipeline !! "status") as [st|]; [|reflexivity].
  destruct (pipeline !! "ref") as [ref|]; [|reflexivity].
  rewrite !ui_bind_mret. intros e.
  unfold user_name.
  destruct (truthy _); [destruct (dict_get pipeline "user" (PDict ∅))|];
    unfold mbind, ui_mbind, ui_bind, mret, ui_mret, ui_ret, raise; simpl;
    discriminate.
Qed.

Lemma make_row_key_errors_witness :
  match Faulty.pipeline_no_ref !! "id", Faulty.pipeline_no_ref !! "status",
        Faulty.pipeline_no_ref !! "ref" with
  | None, _, _ =>
      make_row Example.project_A Faulty.pipeline_no_ref = (Raise (KeyError "id"), [])
  | Some _, None, _ =>
      make_row Example.project_A Faulty.pipeline_no_ref = (Raise (KeyError "status"), [])
  | Some _, Some _, None =>
      make_row Example.project_A Faulty.pipeline_no_ref = (Raise (KeyError "ref"), [])
  | Some _, Some _, Some _ =>
      ∀ e, make_row Example.project_A Faulty.pipeline_no_ref ≠ (Raise (KeyError e), [])
  end.
Proof.
  apply (make_row_key_errors Example.project_A Faulty.pipeline_no_ref).
  split; eexists; vm_compute; reflexivity.
Defined.

Lemma for_each_raises {A B} (f : A → ui B) (good : list A) (x : A)
    (rest : list A) (e : exn) (lg : list ui_event) :
  Forall (λ a, ∃ y, f a = (Ret y, [])) good →
  f x = (Raise e, lg) →
  for_each f (good ++ x :: rest) = (Raise e, lg).
Proof.
  intros Hgood Hx. induction Hgood as [|a good [y Hy] _ IH]; simpl.
  - by rewrite Hx.
  - by rewrite Hy, ui_bind_pure, IH.
Qed.

Lemma for_each_head_raises {A B} (f : A → ui B) (x : A) (rest : list A)
    (e : exn) (lg : list ui_event) :
  f x = (Raise e, lg) → for_each f (x :: rest) = (Raise e, lg).
Proof. intros Hx. apply (for_each_raises f [] x rest e lg); [constructor|done]. Qed.

Lemma collect_pipelines_app_raises (w : World) (d : GitLabDashboard)
    l1 l2 r1 g1 e g2 :
  collect_pipelines w d l1 = (Ret r1, g1) →
  collect_pipelines w d l2 = (Raise e, g2) →
  collect_pipelines w d (l1 ++ l2) = (Raise e, g1 ++ g2).
Proof.
  revert r1 g1. induction l1 as [|q l1 IH]; intros r1 g1 H1 H2.
  - injection H1 as <- <-. done.
  - apply collect_pipelines_cons_inv in H1
      as (rows & la & more & lb & Hq & Hl & -> & ->).
    simpl. rewrite Hq, ui_bind_ret, (IH more lb Hl H2). simpl.
    by rewrite app_assoc.
Qed.

(** X8. An exception while a row is built is not caught: when a record
    answered for one project makes [make_row] raise, the loop ends with
    that exception and returns no row at all, neither the rows collected
    from the projects before nor those of the projects after. *)
Theorem row_error_aborts_collection (w : World) (d : GitLabDashboard)
    (l1 : list pydict) (p : pydict) (l2 : list pydict) (pid : pyval)
    (good : list pydict) (pl : pydict) (rest : list pydict) (e : exn) :
  Forall (fetch_ok w d) l1 →
  project_ok p →
  p !! "id" = Some pid →
  requests_get w (project_pipelines_request d pid 5) = Ok (good ++ pl :: rest) →
  Forall pipeline_ok good →
  make_row p pl = (Raise e, []) →
  collect_pipelines w d (l1 ++ p :: l2) = (Raise e, []).
Proof.
  intros Hl1 Hp Hpid Hreq Hgood Hpl.
  destruct (collect_pipelines_ok w d l1 Hl1) as (rows1 & H1 & _).
  apply (collect_pipelines_app_raises w d l1 (p :: l2) rows1 [] e []); [done|].
  simpl. destruct Hp as [[name Hname] _].
  assert (Hrows : project_rows w d p = (Raise e, [])).
  { unfold project_rows.
    rewrite (subscript_Some _ _ _ Hname), ui_bind_pure.
    rewrite (subscript_Some _ _ _ Hpid), ui_bind_pure.
    rewrite get_project_pipelines_eq, Hreq, ui_bind_mret.
    apply for_each_raises; [|done].
    eapply Forall_impl; [exact Hgood|]. intros x Hx.
    apply make_row_ok; [|done]. split; by eexists. }
  by rewrite Hrows.
Qed.

Lemma row_error_aborts_collection_witness :
  collect_pipelines Faulty.world_no_ref Example.dashboard
    ([] ++ Example.project_A :: [Example.project_B])
  = (Raise (KeyError "ref"), []).
Proof.
  apply (row_error_aborts_collection Faulty.world_no_ref Example.dashboard
           [] Example.project_A [Example.project_B] (PInt 1)
           [Example.pipeline_10] Faulty.pipeline_no_ref [] (KeyError "ref")).
  - constructor.
  - split; eexists; vm_compute; reflexivity.
  - vm_compute; reflexivity.
  - vm_compute; reflexivity.
  - constructor; [|constructor].
    split; [eexists; vm_compute; reflexivity|].
    split; [eexists; vm_compute; reflexivity|].
    split; [eexists; vm_compute; reflexivity|].
    vm_compute. exact I.
  - vm_compute; reflexivity.
Defined.

Lemma subscript_returns_inv (dct : pydict) (k : string) (v : pyval) lg :
  subscript dct k = (Ret v, lg) → dct !! k = Some v ∧ lg = [].
Proof.
  unfold subscript. destruct (dct !! k); [|discriminate].
  by intros [= <- <-].
Qed.

Lemma project_rows_returns_inv (w : World) (d : GitLabDashboard) (q : pydict)
    (rows : list Row) (lg : list ui_event) :
  project_rows w d q = (Ret rows, lg) →
  Forall2 (λ pl row, make_row q pl = (Ret row, [])) (pipelines_of w d q) rows ∧
  lg = pipeline_errors w d q.
Proof.
  unfold project_rows, pipelines_of, pipeline_errors. intros H.
  apply bind_returns_inv in H as (name & l1 & la & Hname & H & ->).
  apply subscript_returns_inv in Hname as [_ ->].
  apply bind_returns_inv in H as (pid & l2 & lb & Hpid & H & ->).
  apply subscript_returns_inv in Hpid as [Hpid ->]. rewrite Hpid.
  apply bind_returns_inv in H as (body & l3 & l4 & Hbody & H & ->).
  rewrite get_project_pipelines_eq in Hbody.
  pose proof (for_each_make_row_silent q body) as Hsilent.
  rewrite H in Hsilent. simpl in Hsilent. subst l4.
  apply for_each_returns_inv in H.
  assert (Hrows : Forall2 (λ pl row, make_row q pl = (Ret row, [])) body rows).
  { eapply Forall2_impl; [exact H|]. intros pl row [g Hg].
    by rewrite (make_row_silent _ _ _ _ Hg) in Hg. }
  destruct (requests_get _ _) as [body'|e].
  - injection Hbody as <- <-. by rewrite app_nil_r.
  - injection Hbody as <- <-. split; [done|]. by rewrite app_nil_r.
Qed.

(** X9. When the loop completes, the collected rows are the rows of the
    answered records, grouped by project in the order of the project list
    and, inside a project, in the order the API answered them; a project
    whose request failed contributes none. *)
Theorem collected_rows_in_order (w : World) (d : GitLabDashboard)
    (projects : list pydict) (rows : list Row) (log : list ui_event) :
  collect_pipelines w d projects = (Ret rows, log) →
  Forall2 (λ qp row, make_row qp.1 qp.2 = (Ret row, []))
    (concat ((λ q, pair q <$> pipelines_of w d q) <$> projects)) rows.
Proof.
  revert rows log. induction projects as [|q l IH]; intros rows log H.
  - injection H as <- _. constructor.
  - apply collect_pipelines_cons_inv in H
      as (rq & lq & more & ll & Hq & Hl & -> & ->).
    apply project_rows_returns_inv in Hq as [Hq _].
    rewrite fmap_cons. simpl concat. apply Forall2_app; [|by eapply IH].
    clear -Hq. induction Hq; [constructor|].
    rewrite fmap_cons. by constructor.
Qed.

Lemma collected_rows_in_order_witness :
  Forall2 (λ qp row, make_row qp.1 qp.2 = (Ret row, []))
    (concat ((λ q, pair q <$> pipelines_of Example.world_one_fails Example.dashboard q)
               <$> [Example.project_A; Example.project_B]))
    [Example.row_10].
Proof.
  apply (collected_rows_in_order Example.world_one_fails Example.dashboard
           [Example.project_A; Example.project_B] [Example.row_10]
           [ErrorProjectPipelines (PInt 2) "500"]).
  vm_compute. reflexivity.
Defined.

(** X10. When the loop completes, its messages are exactly the errors of
    the failed pipeline requests: one message for every occurrence of a
    project whose request failed, naming its id, in the order of the
    project list, and nothing for an answered project. *)
Theorem collected_messages (w : World) (d : GitLabDashboard)
    (projects : list pydict) (rows : list Row) (log : list ui_event) :
  collect_pipelines w d projects = (Ret rows, log) →
  log = concat (pipeline_errors w d <$> projects).
Proof.
  revert rows log. induction projects as [|q l IH]; intros rows log H.
  - by injection H as _ <-.
  - apply collect_pipelines_cons_inv in H
      as (rq & lq & more & ll & Hq & Hl & -> & ->).
    apply project_rows_returns_inv in Hq as [_ ->].
    rewrite fmap_cons. simpl concat. f_equal. by eapply IH.
Qed.

Lemma collected_messages_witness :
  [ErrorProjectPipelines (PInt 2) "500"]
  = concat (pipeline_errors Example.world_one_fails Example.dashboard
              <$> [Example.project_A; Example.project_B]).
Proof.
  apply (collected_messages Example.world_one_fails Example.dashboard
           [Example.project_A; Example.project_B] [Example.row_10]).
  vm_compute. reflexivity.
Defined.

(** ** The overview *)

Lemma status_classes (v : pyval) :
  ((if py_eq_str v "success" then 1 else 0)
   + (if py_eq_str v "failed" then 1 else 0)
   + (if py_eq_str v "running" then 1 else 0)
   + (if py_in_strs v ["pending"; "created"] then 1 else 0)
   + (if negb (py_in_strs v ["success"; "failed"; "running"; "pending"; "created"])
      then 1 else 0) = 1)%nat.
Proof.
  destruct v as [| | |t| |]; try reflexivity.
  unfold py_in_strs, py_eq_str. cbn [existsb].
  destruct (String.eqb_spec t "success") as [->|]; [reflexivity|].
  destruct (String.eqb_spec t "failed") as [->|]; [reflexivity|].
  destruct (String.eqb_spec t "running") as [->|]; [reflexivity|].
  destruct (String.eqb_spec t "pending") as [->|]; [reflexivity|].
  destruct (String.eqb_spec t "created") as [->|]; reflexivity.
Qed.

Lemma length_filter_cons {A} (f : A → bool) (x : A) (l : list A) :
  length (List.filter f (x :: l))
    = ((if f x then 1 else 0) + length (List.filter f l))%nat.
Proof. cbn [List.filter]. by destruct (f x). Qed.

(** X11. The four metrics of the overview count disjoint sets of rows:
    every row is counted by exactly one of "Successful", "Failed",
    "Running" and "Pending", or by none of them when its status is another
    value (canceled, skipped, manual, or anything else).  So the four
    numbers never add up to more than the number of rows. *)
Theorem metrics_are_disjoint (data : list Row) :
  (count_status "success" data + count_status "failed" data
   + count_status "running" data + pending_count data
   + length (List.filter uncounted data) = length data)%nat ∧
  (count_status "success" data + count_status "failed" data
   + count_status "running" data + pending_count data ≤ length data)%nat.
Proof.
  assert (H : (count_status "success" data + count_status "failed" data
               + count_status "running" data + pending_count data
               + length (List.filter uncounted data) = length data)%nat).
  { unfold count_status, pending_count.
    induction data as [|r data IH]; [reflexivity|].
    rewrite !length_filter_cons. unfold uncounted at 1.
    pose proof (status_classes (Status r)) as Hr.
    cbn [length]. lia. }
  split; [done|lia].
Qed.

Lemma make_display_row_raises (w : World) (r : Row) :
  make_display_row w r = (Raise IndexError, []).
Proof. unfold make_display_row. by rewrite get_status_color_IndexError. Qed.

Lemma render_overview_rows (w : World) (r : Row) (data : list Row) :
  render_overview w (r :: data) = (Raise IndexError, []).
Proof.
  unfold render_overview.
  by rewrite (for_each_head_raises (make_display_row w) r data IndexError []
                (make_display_row_raises w r)).
Qed.

(** X12. The first tab shows nothing and raises nothing for an empty
    collection; for every collection with at least one row it ends in
    [IndexError]: the status-icon column (line 217) calls the glyph
    function on the first row, and that call raises. *)
Theorem overview_raises_on_rows (w : World) (data : list Row) :
  render_overview w data
    = match data with
      | [] => (Ret None, [])
      | _ => (Raise IndexError, [])
      end.
Proof.
  destruct data as [|r data]; [reflexivity|]. apply render_overview_rows.
Qed.

(** ** The pending tab *)

Lemma make_pending_entry_raises (w : World) (d : GitLabDashboard) (p : Row) :
  make_pending_entry w d p = (Raise IndexError, []).
Proof. unfold make_pending_entry. by rewrite get_status_color_IndexError. Qed.

(** X13. "No pending pipelines found!" is written, and nothing raised,
    exactly when no row of the collection is pending, created or running.
    With at least one such row the tab ends in [IndexError] and writes no
    message: the label of the first expander (line 237) calls the glyph
    function, and that call raises. *)
Theorem pending_tab_raises_on_rows (w : World) (d : GitLabDashboard)
    (data : list Row) :
  render_pending w d data
    = match pending_pipelines data with
      | [] => (Ret [], [InfoNoPending])
      | _ => (Raise IndexError, [])
      end.
Proof.
  unfold render_pending. destruct (pending_pipelines data) as [|p l]; [reflexivity|].
  exact (for_each_head_raises (make_pending_entry w d) p l IndexError []
           (make_pending_entry_raises w d p)).
Qed.

(** ** The whole script *)

Lemma main_with_projects (w : World) (cfg : config) (q : pydict) (l : list pydict) :
  cfg_auto_refresh cfg = false →
  cfg_refresh_now cfg = false →
  config_complete cfg = true →
  requests_get w (group_projects_request (dashboard_of cfg) (cfg_group_id cfg))
    = Ok (q :: l) →
  main w cfg = (render_tabs w (dashboard_of cfg) (q :: l) ≫= λ v, mret (Rendered v)).
Proof.
  intros Hauto Hnow Hcfg Hreq. unfold main. rewrite Hauto, Hnow, Hcfg. simpl.
  fold (dashboard_of cfg). rewrite get_group_projects_eq.
  by rewrite Hreq, ui_bind_mret.
Qed.

(** X17. Whenever the loop collects at least one row, the script dies:
    with a complete configuration and no rerun, a group answered with at
    least one project and a loop that completes with a non-empty
    collection, [main] ends in [IndexError] (raised in the first tab by the
    glyph function) after writing the number of projects and the errors of
    the loop; the second and third tabs are never reached. *)
Theorem main_raises_on_rows (w : World) (cfg : config) (projects : list pydict)
    (rows : list Row) (elog : list ui_event) :
  cfg_auto_refresh cfg = false →
  cfg_refresh_now cfg = false →
  config_complete cfg = true →
  requests_get w (group_projects_request (dashboard_of cfg) (cfg_group_id cfg))
    = Ok projects →
  projects ≠ [] →
  collect_pipelines w (dashboard_of cfg) projects = (Ret rows, elog) →
  rows ≠ [] →
  main w cfg = (Raise IndexError, SuccessFound (length projects) :: elog).
Proof.
  intros Hauto Hnow Hcfg Hreq Hne Hcollect Hrows.
  destruct projects as [|q l]; [done|].
  rewrite (main_with_projects w cfg q l Hauto Hnow Hcfg Hreq).
  assert (Hov : render_overview w rows = (Raise IndexError, [])).
  { destruct rows as [|r rows]; [done|]. apply render_overview_rows. }
  unfold render_tabs, tell.
  rewrite ui_bind_ret, Hcollect, ui_bind_ret, Hov. simpl.
  by rewrite app_nil_r.
Qed.

Lemma main_raises_on_rows_witness :
  main Example.world_one_fails Example.cfg
    = (Raise IndexError,
       SuccessFound (length [Example.project_A; Example.project_B])
         :: [ErrorProjectPipelines (PInt 2) "500"]).
Proof.
  apply (main_raises_on_rows Example.world_one_fails Example.cfg
           [Example.project_A; Example.project_B] [Example.row_10]
           [ErrorProjectPipelines (PInt 2) "500"]).
  - reflexivity.
  - reflexivity.
  - reflexivity.
  - vm_compute. reflexivity.
  - discriminate.
  - vm_compute. reflexivity.
  - discriminate.
Defined.

Lemma collect_pipelines_all_fail (w : World) (d : GitLabDashboard)
    (projects : list pydict) :
  Forall (λ q, ∃ pid e, fetch_fails w d q pid e) projects →
  collect_pipelines w d projects
    = (Ret [], concat (pipeline_errors w d <$> projects)) ∧
  length (concat (pipeline_errors w d <$> projects)) = length projects.
Proof.
  induction 1 as [|q l (pid & e & Hq) _ [IH Hlen]]; [done|].
  pose proof (project_rows_fails w d q pid e Hq) as Hrows.
  destruct Hq as (_ & Hpid & Hreq).
  assert (Herr : pipeline_errors w d q = [ErrorProjectPipelines pid e]).
  { unfold pipeline_errors. by rewrite Hpid, Hreq. }
  rewrite fmap_cons. simpl concat. rewrite Herr. split.
  - by apply (collect_pipelines_cons w d q l [] _ [] _).
  - simpl. by rewrite Hlen.
Qed.

(** X18. When the pipeline request of every project fails, the script
    still renders its tabs, on an empty collection: after the number of
    projects it writes one error per project, then "No pending pipelines
    found!" and "No successful pipelines found!", and the overview shows
    nothing; it does not write "No projects found or unable to access the
    group." *)
Theorem all_pipeline_requests_fail (w : World) (cfg : config)
    (projects : list pydict) :
  cfg_auto_refresh cfg = false →
  cfg_refresh_now cfg = false →
  config_complete cfg = true →
  requests_get w (group_projects_request (dashboard_of cfg) (cfg_group_id cfg))
    = Ok projects →
  projects ≠ [] →
  Forall (λ q, ∃ pid e, fetch_fails w (dashboard_of cfg) q pid e) projects →
  main w cfg
    = (Ret (Rendered {| v_all_pipelines_data := [];
                        v_overview := None;
                        v_pending := [];
                        v_successes := [] |}),
       SuccessFound (length projects)
         :: concat (pipeline_errors w (dashboard_of cfg) <$> projects)
         ++ [InfoNoPending; InfoNoSuccesses]) ∧
  length (concat (pipeline_errors w (dashboard_of cfg) <$> projects))
    = length projects.
Proof.
  intros Hauto Hnow Hcfg Hreq Hne Hfail.
  destruct (collect_pipelines_all_fail w (dashboard_of cfg) projects Hfail)
    as [Hcollect Hlen].
  split; [|done].
  destruct projects as [|q l]; [done|].
  rewrite (main_with_projects w cfg q l Hauto Hnow Hcfg Hreq).
  unfold render_tabs, tell. rewrite ui_bind_ret, Hcollect, ui_bind_ret.
  simpl. by rewrite !app_nil_r.
Qed.

Lemma all_pipeline_requests_fail_witness :
  main Outage.world_all_fail Example.cfg
    = (Ret (Rendered {| v_all_pipelines_data := [];
                        v_overview := None;
                        v_pending := [];
                        v_successes := [] |}),
       SuccessFound (length [Example.project_A; Example.project_B])
         :: concat (pipeline_errors Outage.world_all_fail (dashboard_of Example.cfg)
                      <$> [Example.project_A; Example.project_B])
         ++ [InfoNoPending; InfoNoSuccesses]) ∧
  length (concat (pipeline_errors Outage.world_all_fail (dashboard_of Example.cfg)
                    <$> [Example.project_A; Example.project_B]))
    = length [Example.project_A; Example.project_B].
Proof.
  apply (all_pipeline_requests_fail Outage.world_all_fail Example.cfg
           [Example.project_A; Example.project_B]).
  - reflexivity.
  - reflexivity.
  - reflexivity.
  - vm_compute. reflexivity.
  - discriminate.
  - constructor; [|constructor; [|constructor]].
    + exists (PInt 1), "503".
      split; [split; eexists; vm_compute; reflexivity|].
      split; vm_compute; reflexivity.
    + exists (PInt 2), "503".
      split; [split; eexists; vm_compute; reflexivity|].
      split; vm_compute; reflexivity.
Defined.

(** X19. The tabs are shown only behind all the guards: a run that ends
    with rendered tabs had auto-refresh off and the refresh button not
    pressed, a non-empty URL, token and group id, and a group request
    answered with at least one project; its first message is the number of
    projects, and the views and the remaining messages are those of the
    loop and the tabs on these projects. *)
Theorem rendered_only_behind_guards (w : World) (cfg : config) (v : views)
    (log : list ui_event) :
  main w cfg = (Ret (Rendered v), log) →
  cfg_auto_refresh cfg = false ∧
  cfg_refresh_now cfg = false ∧
  cfg_gitlab_url cfg ≠ "" ∧ cfg_access_token cfg ≠ "" ∧ cfg_group_id cfg ≠ "" ∧
  ∃ projects,
    requests_get w (group_projects_request (dashboard_of cfg) (cfg_group_id cfg))
      = Ok projects ∧
    projects ≠ [] ∧
    render_tabs w (dashboard_of cfg) projects = (Ret v, log) ∧
    ∃ rest, log = SuccessFound (length projects) :: rest.
Proof.
  unfold main. fold (dashboard_of cfg).
  destruct (cfg_auto_refresh cfg); [discriminate|].
  destruct (cfg_refresh_now cfg); [discriminate|].
  destruct (config_complete cfg) eqn:Hcfg; simpl; [|discriminate].
  unfold config_complete in Hcfg. simpl in Hcfg.
  apply andb_true_iff in Hcfg as [Hurl Hcfg].
  apply andb_true_iff in Hcfg as [Htoken Hcfg].
  apply andb_true_iff in Hcfg as [Hgroup _].
  rewrite get_group_projects_eq.
  destruct (requests_get _ _) as [[|q l]|e]; try discriminate.
  rewrite ui_bind_mret. intros H.
  apply bind_returns_inv in H as (v' & l1 & l2 & Htabs & H & ->).
  injection H as <- <-. rewrite app_nil_r.
  split; [done|]. split; [done|].
  split; [by intros E; rewrite E in Hurl|].
  split; [by intros E; rewrite E in Htoken|].
  split; [by intros E; rewrite E in Hgroup|].
  exists (q :: l). split; [done|]. split; [done|]. split; [done|].
  unfold render_tabs, tell in Htabs. rewrite ui_bind_ret in Htabs.
  injection Htabs as _ <-. by eexists.
Qed.

Lemma rendered_only_behind_guards_witness :
  cfg_auto_refresh Example.cfg = false ∧
  cfg_refresh_now Example.cfg = false ∧
  cfg_gitlab_url Example.cfg ≠ "" ∧ cfg_access_token Example.cfg ≠ ""
  ∧ cfg_group_id Example.cfg ≠ "" ∧
  ∃ projects,
    requests_get Outage.world_all_fail
      (group_projects_request (dashboard_of Example.cfg) (cfg_group_id Example.cfg))
      = Ok projects ∧
    projects ≠ [] ∧
    render_tabs Outage.world_all_fail (dashboard_of Example.cfg) projects
      = (Ret {| v_all_pipelines_data := []; v_overview := None;
                v_pending := []; v_successes := [] |},
         [SuccessFound 2; ErrorProjectPipelines (PInt 1) "503";
          ErrorProjectPipelines (PInt 2) "503"; InfoNoPending; InfoNoSuccesses]) ∧
    ∃ rest,
      [SuccessFound 2; ErrorProjectPipelines (PInt 1) "503";
       ErrorProjectPipelines (PInt 2) "503"; InfoNoPending; InfoNoSuccesses]
      = SuccessFound (length projects) :: rest.
Proof.
  apply (rendered_only_behind_guards Outage.world_all_fail Example.cfg).
  vm_compute. reflexivity.
Defined.

(** X20. An empty group and a failed group request end the script the
    same way, before the loop: [main] ends with "No projects found or
    unable to access the group." exactly when the guards are passed and the
    group request is answered with no project, or fails; only in the
    second case the error of the request is written before it. *)
Theorem no_projects_found_iff (w : World) (cfg : config) (log : list ui_event) :
  main w cfg = (Ret NoProjectsFound, log) ↔
  cfg_auto_refresh cfg = false ∧
  cfg_refresh_now cfg = false ∧
  config_complete cfg = true ∧
  ((requests_get w (group_projects_request (dashboard_of cfg) (cfg_group_id cfg))
      = Ok [] ∧ log = [ErrorNoProjects]) ∨
   (∃ e, requests_get w (group_projects_request (dashboard_of cfg) (cfg_group_id cfg))
           = RequestException e ∧
         log = [ErrorGroupProjects e; ErrorNoProjects])).
Proof.
  unfold main. fold (dashboard_of cfg). rewrite get_group_projects_eq. split.
  - destruct (cfg_auto_refresh cfg); [discriminate|].
    destruct (cfg_refresh_now cfg); [discriminate|].
    destruct (config_complete cfg); simpl; [|discriminate].
    destruct (requests_get _ _) as [[|q l]|e].
    + intros [= <-]. repeat split; by left.
    + rewrite ui_bind_mret. intros H.
      apply bind_returns_inv in H as (v & l1 & l2 & _ & H & _). discriminate.
    + intros [= <-]. repeat split. right. by exists e.
  - intros (-> & -> & -> & [[-> ->]|(e & -> & ->)]); reflexivity.
Qed.

(** ** Missing dates and the two filtered tabs *)

Lemma make_row_returns (project pipeline : pydict) (row : Row) (lg : list ui_event) :
  make_row project pipeline = (Ret row, lg) →
  Created row = dict_get pipeline "created_at" (PStr "") ∧
  Updated row = dict_get pipeline "updated_at" (PStr "") ∧
  Web_URL row = dict_get pipeline "web_url" (PStr "").
Proof.
  unfold make_row. intros H.
  apply bind_returns_inv in H as (name & l1 & la & _ & H & _).
  apply bind_returns_inv in H as (pid & l2 & lb & _ & H & _).
  apply bind_returns_inv in H as (plid & l3 & lc & _ & H & _).
  apply bind_returns_inv in H as (st & l4 & ld & _ & H & _).
  apply bind_returns_inv in H as (ref & l5 & le & _ & H & _).
  apply bind_returns_inv in H as (user & l6 & lf & _ & H & _).
  by injection H as <- _.
Qed.

(** X21. A pipeline whose ["created_at"] is absent, null or empty shows
    "N/A" as its creation date, and one whose ["updated_at"] is absent,
    null or empty shows "N/A" as its elapsed time: the default of the row
    is the empty string, which both date routines answer with "N/A". *)
Theorem missing_dates_show_NA (w : World) (project pipeline : pydict) (row : Row)
    (lg : list ui_event) :
  make_row project pipeline = (Ret row, lg) →
  (match pipeline !! "created_at" with
   | Some v => truthy v = false
   | None => True
   end → format_datetime w (Created row) = PStr "N/A") ∧
  (match pipeline !! "updated_at" with
   | Some v => truthy v = false
   | None => True
   end → get_time_ago w (Updated row) = "N/A").
Proof.
  intros H. apply make_row_returns in H as (-> & -> & _).
  unfold dict_get. split.
  - destruct (pipeline !! "created_at") as [v|]; simpl; [|done].
    apply falsy_format_datetime.
  - destruct (pipeline !! "updated_at") as [v|]; simpl; [|done].
    apply falsy_get_time_ago.
Qed.

Lemma missing_dates_show_NA_witness :
  (match Example.pipeline_10 !! "created_at" with
   | Some v => truthy v = false
   | None => True
   end → format_datetime Example.world_all_ok (Created Example.row_10) = PStr "N/A") ∧
  (match Example.pipeline_10 !! "updated_at" with
   | Some v => truthy v = false
   | None => True
   end → get_time_ago Example.world_all_ok (Updated Example.row_10) = "N/A").
Proof.
  apply (missing_dates_show_NA Example.world_all_ok Example.project_A
           Example.pipeline_10 Example.row_10 []).
  vm_compute. reflexivity.
Defined.

(** X22. No row appears both in the pending tab and among the successes
    of the third tab, and a row of either tab is counted by a metric of the
    overview: the rows no metric counts (canceled, skipped, manual, unknown)
    are shown in neither tab. *)
Theorem filtered_tabs_are_disjoint (data : list Row) (r : Row) :
  r ∈ data →
  (r ∈ pending_pipelines data → (r ∉ success_pipelines data)) ∧
  (uncounted r = true →
   (r ∉ pending_pipelines data) ∧ (r ∉ success_pipelines data)).
Proof.
  intros Hr.
  assert (Hp : r ∈ pending_pipelines data ↔
               py_in_strs (Status r) ["pending"; "created"; "running"] = true).
  { unfold pending_pipelines.
    rewrite list_elem_of_In, filter_In, <- list_elem_of_In. tauto. }
  assert (Hs : r ∈ success_pipelines data ↔ py_eq_str (Status r) "success" = true).
  { rewrite elem_of_success_pipelines, py_eq_str_true. tauto. }
  rewrite Hp, Hs. unfold uncounted, py_in_strs, py_eq_str. cbn [existsb].
  destruct (Status r) as [| | |t| |]; try (split; [discriminate|by split]).
  destruct (String.eqb_spec t "success") as [->|]; [by split|].
  destruct (String.eqb_spec t "failed") as [->|]; [by split|].
  destruct (String.eqb_spec t "running") as [->|]; [by split|].
  destruct (String.eqb_spec t "pending") as [->|]; [by split|].
  destruct (String.eqb_spec t "created") as [->|]; by split.
Qed.

Lemma filtered_tabs_are_disjoint_witness :
  (Example.row_20 ∈ pending_pipelines Example.rows →
   (Example.row_20 ∉ success_pipelines Example.rows)) ∧
  (uncounted Example.row_20 = true →
   (Example.row_20 ∉ pending_pipelines Example.rows) ∧
   (Example.row_20 ∉ success_pipelines Example.rows)).
Proof.
  apply (filtered_tabs_are_disjoint Example.rows Example.row_20).
  apply list_elem_of_further, list_elem_of_here.
Defined.

(** ** What a rendered page can hold *)

Lemma render_tabs_returns_inv (w : World) (d : GitLabDashboard)
    (projects : list pydict) (v : views) (log : list ui_event) :
  render_tabs w d projects = (Ret v, log) →
  v = {| v_all_pipelines_data := []; v_overview := None;
         v_pending := []; v_successes := [] |} ∧
  ∃ elog,
    collect_pipelines w d projects = (Ret [], elog) ∧
    log = SuccessFound (length projects) :: elog ++ [InfoNoPending; InfoNoSuccesses].
Proof.
  unfold render_tabs, tell. rewrite ui_bind_ret. intros H.
  destruct (collect_pipelines w d projects) as [[rows|x] elog] eqn:Hcollect;
    [|discriminate].
  rewrite ui_bind_ret in H.
  destruct rows as [|r rows].
  - simpl in H. injection H as <- <-. split; [done|]. by exists elog.
  - rewrite render_overview_rows in H. discriminate.
Qed.

(** X23. A run that ends with its tabs rendered has rendered them empty:
    the collection has no row, the overview is absent, and the two other
    tabs hold nothing but their "nothing found" notes, which are the last
    two messages after the number of projects and the errors of the loop.
    A page with at least one pipeline on it is never produced. *)
Theorem rendered_pages_are_empty (w : World) (cfg : config) (v : views)
    (log : list ui_event) :
  main w cfg = (Ret (Rendered v), log) →
  v = {| v_all_pipelines_data := []; v_overview := None;
         v_pending := []; v_successes := [] |} ∧
  ∃ projects elog,
    requests_get w (group_projects_request (dashboard_of cfg) (cfg_group_id cfg))
      = Ok projects ∧
    collect_pipelines w (dashboard_of cfg) projects = (Ret [], elog) ∧
    log = SuccessFound (length projects) :: elog ++ [InfoNoPending; InfoNoSuccesses].
Proof.
  unfold main. fold (dashboard_of cfg).
  destruct (cfg_auto_refresh cfg); [discriminate|].
  destruct (cfg_refresh_now cfg); [discriminate|].
  destruct (config_complete cfg); simpl; [|discriminate].
  rewrite get_group_projects_eq.
  destruct (requests_get _ _) as [[|q l]|e]; try discriminate.
  rewrite ui_bind_mret. intros H.
  apply bind_returns_inv in H as (v' & l1 & l2 & Htabs & H & ->).
  injection H as <- <-. rewrite app_nil_r.
  apply render_tabs_returns_inv in Htabs as [-> (elog & Hcollect & ->)].
  split; [done|]. by exists (q :: l), elog.
Qed.

Lemma rendered_pages_are_empty_witness :
  {| v_all_pipelines_data := []; v_overview := None;
     v_pending := []; v_successes := [] |}
  = {| v_all_pipelines_data := []; v_overview := None;
       v_pending := []; v_successes := [] |} ∧
  ∃ projects elog,
    requests_get Outage.world_all_fail
      (group_projects_request (dashboard_of Example.cfg) (cfg_group_id Example.cfg))
      = Ok projects ∧
    collect_pipelines Outage.world_all_fail (dashboard_of Example.cfg) projects
      = (Ret [], elog) ∧
    [SuccessFound 2; ErrorProjectPipelines (PInt 1) "503";
     ErrorProjectPipelines (PInt 2) "503"; InfoNoPending; InfoNoSuccesses]
    = SuccessFound (length projects) :: elog ++ [InfoNoPending; InfoNoSuccesses].
Proof.
  apply (rendered_pages_are_empty Outage.world_all_fail Example.cfg).
  vm_compute. reflexivity.
Defined.
